(** * public/models/download_model.py

    A shallow embedding of the export driver: a one-shot script that loads
    the YOLOv8n-Pose checkpoint through the ultralytics package, exports it
    to ONNX, checks for the exported file and prints a status report.

    The script talks to four outside parties: the import system, the
    ultralytics library, the file system and standard output.  Their
    answers are collected in a [world] record; the script itself is a
    computation in a small monad that threads the lines written so far
    and may raise a Python exception.  Every call the script makes can
    raise, its own [print] calls and the [str(e)] of its error line
    included. *)

From Stdlib Require Import String Ascii List Bool ZArith NArith Lia.
From Stdlib Require Import Decimal DecimalString DecimalN.
Import ListNotations.

Local Open Scope string_scope.
Local Open Scope Z_scope.

(** ** Python exceptions *)

Module Py.

(** The built-in classes the script can meet, with their places in the
    class tree, and classes defined by libraries ([Subclass name base]). *)
Inductive exc_class : Type :=
  | BaseException
  | SystemExit
  | KeyboardInterrupt
  | GeneratorExit
  | Exception
  | ImportError
  | ModuleNotFoundError
  | OSError
  | FileNotFoundError
  | RuntimeError
  | ValueError
  | Subclass (name : string) (base : exc_class).

(** Method resolution order: the class followed by its ancestors. *)
Fixpoint mro (c : exc_class) : list exc_class :=
  match c with
  | BaseException => [BaseException]
  | SystemExit => [SystemExit; BaseException]
  | KeyboardInterrupt => [KeyboardInterrupt; BaseException]
  | GeneratorExit => [GeneratorExit; BaseException]
  | Exception => [Exception; BaseException]
  | ImportError => [ImportError; Exception; BaseException]
  | ModuleNotFoundError =>
      [ModuleNotFoundError; ImportError; Exception; BaseException]
  | OSError => [OSError; Exception; BaseException]
  | FileNotFoundError => [FileNotFoundError; OSError; Exception; BaseException]
  | RuntimeError => [RuntimeError; Exception; BaseException]
  | ValueError => [ValueError; Exception; BaseException]
  | Subclass name base => Subclass name base :: mro base
  end.

Definition exc_class_eq_dec (c d : exc_class) : {c = d} + {c <> d}.
Proof. decide equality. apply string_dec. Defined.

Definition issubclass (c d : exc_class) : bool :=
  if in_dec exc_class_eq_dec d (mro c) then true else false.

(** A raised exception: its class and what [str(e)] does, which is to
    return a text or, with a faulty [__str__], to raise in its turn. *)
Inductive exn : Type :=
  | mkExn (cls : exc_class) (str : str_outcome)
with str_outcome : Type :=
  | Text (s : string)
  | StrRaises (e : exn).

Definition exn_class (e : exn) : exc_class :=
  match e with mkExn cls _ => cls end.

Definition exn_str (e : exn) : str_outcome :=
  match e with mkExn _ str => str end.

Definition isinstance (e : exn) (c : exc_class) : bool :=
  issubclass (exn_class e) c.

(** The outcome of a call: a value, or a raised exception. *)
Inductive result (A : Type) : Type :=
  | Ok (a : A)
  | Raise (e : exn).

Arguments Ok {A} a.
Arguments Raise {A} e.

End Py.
Import Py.

(** ** Floats, true division and the [.2f] format *)

Module Float.

(** A non-negative finite double, written [mant * 2 ^ expo]. *)
Record pyfloat : Type := mkFloat { mant : Z; expo : Z }.

(** The integer nearest to [num / den] for [den > 0], ties to even. *)
Definition round_half_even (num den : Z) : Z :=
  let q := num / den in
  let r := num mod den in
  if 2 * r <? den then q
  else if den <? 2 * r then q + 1
  else if Z.even q then q else q + 1.

(** The fraction [a / (b * 2 ^ e)] as a numerator and a denominator. *)
Definition scaled (a b e : Z) : Z * Z :=
  if 0 <=? e then (a, b * 2 ^ e) else (a * 2 ^ (- e), b).

(** [a / b] on Python ints, [b] positive: the double nearest to the exact
    quotient, with a 53-bit significand and ties to even.  File sizes are
    64-bit offsets, so the quotient by [1024*1024] stays far inside the
    exponent range of a double, which is therefore not represented. *)
Definition truediv (a b : N) : pyfloat :=
  if (a =? 0)%N then mkFloat 0 0
  else
    let za := Z.of_N a in
    let zb := Z.of_N b in
    let e0 := Z.log2 za - Z.log2 zb - 53 in
    let e := if fst (scaled za zb e0) / snd (scaled za zb e0) <? 2 ^ 53
             then e0 else e0 + 1 in
    let m := round_half_even (fst (scaled za zb e)) (snd (scaled za zb e)) in
    if m =? 2 ^ 53 then mkFloat (2 ^ 52) (e + 1) else mkFloat m e.

(** The float times one hundred, rounded to an integer (ties to even on
    the exact binary value, as the C library's correctly rounded
    conversion does). *)
Definition hundredths (x : pyfloat) : Z :=
  if 0 <=? expo x
  then 100 * mant x * 2 ^ expo x
  else round_half_even (100 * mant x) (2 ^ (- expo x)).

Definition digit (d : Z) : string :=
  String (ascii_of_N (48 + Z.to_N d)) EmptyString.

Definition decimal (n : Z) : string :=
  NilZero.string_of_uint (N.to_uint (Z.to_N n)).

(** [format(x, '.2f')] for a non-negative float. *)
Definition format_2f (x : pyfloat) : string :=
  let q := hundredths x in
  decimal (q / 100) ++ "." ++ digit (q mod 100 / 10) ++ digit (q mod 10).

End Float.
Import Float.

(** ** Standard output and the script monad *)

(** The lines the script can print, one constructor per [print] call of
    the source; [text] is the string the call writes.  Only the script's
    own [print] calls are recorded: what the library writes to the
    terminal while it downloads or exports is not the script's output. *)
Inductive message : Type :=
  | Downloading
  | Exporting
  | Success
  | FileSize (mib : pyfloat)
  | NotFound
  | NotInstalled
  | InstallHint
  | ErrorMsg (s : string).

Definition text (m : message) : string :=
  match m with
  | Downloading => "Downloading YOLOv8n-Pose model..."
  | Exporting => "Exporting to ONNX format..."
  | Success => "✅ Success! Model exported to: yolov8n-pose.onnx"
  | FileSize mib => "   File size: " ++ format_2f mib ++ " MB"
  | NotFound => "❌ Error: Model file not found after export"
  | NotInstalled => "❌ Error: ultralytics package not installed"
  | InstallHint => "   Install it with: pip install ultralytics"
  | ErrorMsg s => "❌ Error: " ++ s
  end.

(** The lines written so far, oldest first. *)
Definition stdout : Type := list message.

(** A computation reads the output written so far and gives back the
    output after it, with a value or a raised exception.  What was
    printed before a raise stays printed. *)
Definition io (A : Type) : Type := stdout -> stdout * result A.

Definition ret {A} (a : A) : io A := fun out => (out, Ok a).

Definition bind {A B} (c : io A) (k : A -> io B) : io B :=
  fun out =>
    match c out with
    | (out', Ok a) => k a out'
    | (out', Raise e) => (out', Raise e)
    end.

Declare Scope io_scope.
Delimit Scope io_scope with io.
Notation "x <- c ;; k" := (bind c (fun x => k))
  (at level 100, c at next level, right associativity) : io_scope.
Notation "c ;; k" := (bind c (fun _ => k))
  (at level 100, right associativity) : io_scope.

(** A call into the outside world: its answer is given. *)
Definition call {A} (r : result A) : io A := fun out => (out, r).

(** One [except C as e: handler] clause. *)
Definition clause : Type := exc_class * (exn -> io unit).

(** [try: body] followed by [except] clauses: the first clause whose
    class the exception is an instance of runs; with none, the exception
    goes on to the caller.  An exception raised by the handler itself is
    not offered to the later clauses: it goes on to the caller. *)
Definition try_except (body : io unit) (clauses : list clause) : io unit :=
  fun out =>
    match body out with
    | (out', Ok v) => (out', Ok v)
    | (out', Raise e) =>
        match find (fun cl => isinstance e (fst cl)) clauses with
        | Some cl => snd cl e out'
        | None => (out', Raise e)
        end
    end.

(** ** The outside world *)

(** A loaded model; the script only passes it on to [export]. *)
Inductive model : Type := Model (checkpoint : string).

(** The keyword arguments of [model.export]. *)
Record export_args : Type :=
  mkArgs { format : string; imgsz : Z; simplify : bool }.

(** What the import system, ultralytics, the file system and standard
    output answer when the script asks.  [write hist s] is what writing
    the line [s] does after the lines [hist] have been written: a stream
    that cannot encode [s], or that has been closed, raises.
    [flush_at_exit] is the flush of standard output the interpreter does
    on its way out. *)
Record world : Type := mkWorld {
  import_YOLO : result unit;                      (* from ultralytics import YOLO *)
  import_os : result unit;                        (* import os *)
  YOLO : string -> result model;                  (* YOLO(checkpoint) *)
  export : model -> export_args -> result unit;   (* model.export(...) *)
  path_exists : string -> bool;                   (* os.path.exists(path) *)
  path_getsize : string -> result N;              (* os.path.getsize(path) *)
  write : list string -> string -> result unit;   (* sys.stdout.write(line) *)
  flush_at_exit : result unit                     (* sys.stdout.flush() at shutdown *)
}.

(** ** The script *)

Section Script.

Variable w : world.

Local Open Scope io_scope.

(** [print(m)]: the line is written whole, or the write raises and
    nothing of it is written. *)
Definition print (m : message) : io unit :=
  fun out =>
    match write w (map text out) (text m) with
    | Ok _ => ((out ++ [m])%list, Ok tt)
    | Raise e => (out, Raise e)
    end.

(** [str(e)], as the f-string of the error line calls it. *)
Definition str (e : exn) : io string :=
  call (match exn_str e with
        | Text s => Ok s
        | StrRaises e' => Raise e'
        end).

(** The body of the [try] statement, lines 7 to 21. *)
Definition try_body : io unit :=
  call (import_YOLO w) ;;
  call (import_os w) ;;
  print Downloading ;;
  model <- call (YOLO w "yolov8n-pose.pt") ;;
  print Exporting ;;
  call (export w model (mkArgs "onnx" 640 true)) ;;
  if path_exists w "yolov8n-pose.onnx" then
    print Success ;;
    size <- call (path_getsize w "yolov8n-pose.onnx") ;;
    print (FileSize (truediv size (1024 * 1024)))
  else
    print NotFound.

(** [except ImportError:], lines 23 to 25. *)
Definition on_import_error (_ : exn) : io unit :=
  print NotInstalled ;;
  print InstallHint.

(** [except Exception as e:], lines 26 and 27. *)
Definition on_exception (e : exn) : io unit :=
  s <- str e ;;
  print (ErrorMsg s).

(** The whole module. *)
Definition script : io unit :=
  try_except try_body
    [(ImportError, on_import_error); (Exception, on_exception)].

(** A run of the script as a process: standard output starts empty. *)
Definition run : stdout * result unit := script [].

(** The exception, if any, that leaves the [try] body. *)
Definition raised_in_try : option exn :=
  match snd (try_body []) with
  | Ok _ => None
  | Raise e => Some e
  end.

(** What the [try] body had printed when it ended. *)
Definition printed_in_try : stdout := fst (try_body []).

End Script.

(** No exception leaves the module: the script does not raise past its
    own boundary. *)
Definition returns_normally (r : stdout * result unit) : Prop :=
  snd r = Ok tt.

(** The exception [e] leaves the module. *)
Definition propagates (r : stdout * result unit) (e : exn) : Prop :=
  snd r = Raise e.

Definition printed (r : stdout * result unit) : list string :=
  map text (fst r).

(** How the process ends.  When no exception leaves the module the
    interpreter flushes standard output and exits with status 0, or with
    status 120 when that flush fails.  An exception that leaves the
    module ends the process early: with a traceback and a non-zero
    status, or with the status a [SystemExit] carries. *)
Inductive ending : Type :=
  | ExitZero
  | ExitFlushFailed
  | ExitUncaught (e : exn).

Definition process_end (w : world) : ending :=
  match snd (run w) with
  | Raise e => ExitUncaught e
  | Ok _ =>
      match flush_at_exit w with
      | Ok _ => ExitZero
      | Raise _ => ExitFlushFailed
      end
  end.


(** ** Conditions on the world *)

(** Standard output, having written [out], accepts the lines [ms] one
    after the other. *)
Fixpoint accepts (w : world) (out : stdout) (ms : list message) : Prop :=
  match ms with
  | [] => True
  | m :: ms' =>
      write w (map text out) (text m) = Ok tt /\
      accepts w (out ++ [m])%list ms'
  end.

(** The imports, the model load and the export all return. *)
Definition export_completes (w : world) : Prop :=
  import_YOLO w = Ok tt /\ import_os w = Ok tt /\
  exists m : model,
    YOLO w "yolov8n-pose.pt" = Ok m /\
    export w m (mkArgs "onnx" 640 true) = Ok tt.

(** The stages of the [try] body: both imports done; the starting line
    printed and the model loaded; the exporting line printed and the
    export done. *)
Definition imports_done (w : world) : Prop :=
  import_YOLO w = Ok tt /\ import_os w = Ok tt.

Definition model_loaded (w : world) (m : model) : Prop :=
  imports_done w /\
  write w (map text []) (text Downloading) = Ok tt /\
  YOLO w "yolov8n-pose.pt" = Ok m.

Definition export_done (w : world) : Prop :=
  exists m : model,
    model_loaded w m /\
    write w (map text [Downloading]) (text Exporting) = Ok tt /\
    export w m (mkArgs "onnx" 640 true) = Ok tt.

(** [raised_at w e pre]: some step of the [try] body raises [e], the
    lines [pre] having been printed before it.  Every call of the body
    is a step: the imports, the library calls, the size query and the
    body's own [print] calls. *)
Inductive raised_at (w : world) (e : exn) : stdout -> Prop :=
  | at_import_YOLO :
      import_YOLO w = Raise e ->
      raised_at w e []
  | at_import_os :
      import_YOLO w = Ok tt -> import_os w = Raise e ->
      raised_at w e []
  | at_print_downloading :
      imports_done w ->
      write w (map text []) (text Downloading) = Raise e ->
      raised_at w e []
  | at_acquire :
      imports_done w ->
      write w (map text []) (text Downloading) = Ok tt ->
      YOLO w "yolov8n-pose.pt" = Raise e ->
      raised_at w e [Downloading]
  | at_print_exporting (m : model) :
      model_loaded w m ->
      write w (map text [Downloading]) (text Exporting) = Raise e ->
      raised_at w e [Downloading]
  | at_export (m : model) :
      model_loaded w m ->
      write w (map text [Downloading]) (text Exporting) = Ok tt ->
      export w m (mkArgs "onnx" 640 true) = Raise e ->
      raised_at w e [Downloading; Exporting]
  | at_print_success :
      export_done w ->
      path_exists w "yolov8n-pose.onnx" = true ->
      write w (map text [Downloading; Exporting]) (text Success) = Raise e ->
      raised_at w e [Downloading; Exporting]
  | at_getsize :
      export_done w ->
      path_exists w "yolov8n-pose.onnx" = true ->
      write w (map text [Downloading; Exporting]) (text Success) = Ok tt ->
      path_getsize w "yolov8n-pose.onnx" = Raise e ->
      raised_at w e [Downloading; Exporting; Success]
  | at_print_size (n : N) :
      export_done w ->
      path_exists w "yolov8n-pose.onnx" = true ->
      write w (map text [Downloading; Exporting]) (text Success) = Ok tt ->
      path_getsize w "yolov8n-pose.onnx" = Ok n ->
      write w (map text [Downloading; Exporting; Success])
              (text (FileSize (truediv n (1024 * 1024)))) = Raise e ->
      raised_at w e [Downloading; Exporting; Success]
  | at_print_not_found :
      export_done w ->
      path_exists w "yolov8n-pose.onnx" = false ->
      write w (map text [Downloading; Exporting]) (text NotFound) = Raise e ->
      raised_at w e [Downloading; Exporting].

(** The handler that takes [e] after the lines [pre] runs to its end:
    for an [ImportError] both of its lines are accepted; for another
    exception [str(e)] returns and the error line is accepted. *)
Definition handler_succeeds (w : world) (e : exn) (pre : stdout) : Prop :=
  if isinstance e ImportError
  then accepts w pre [NotInstalled; InstallHint]
  else exists s : string, exn_str e = Text s /\ accepts w pre [ErrorMsg s].

(** The ways a run can go: the two ways the [try] body ends without an
    exception, and what becomes of an exception it raises. *)
Inductive run_case (w : world) : stdout * result unit -> Prop :=
  | case_success (n : N) :
      export_completes w ->
      path_exists w "yolov8n-pose.onnx" = true ->
      path_getsize w "yolov8n-pose.onnx" = Ok n ->
      accepts w [] [Downloading; Exporting; Success;
                    FileSize (truediv n (1024 * 1024))] ->
      run_case w ([Downloading; Exporting; Success;
                   FileSize (truediv n (1024 * 1024))], Ok tt)
  | case_not_found :
      export_completes w ->
      path_exists w "yolov8n-pose.onnx" = false ->
      accepts w [] [Downloading; Exporting; NotFound] ->
      run_case w ([Downloading; Exporting; NotFound], Ok tt)
  | case_not_installed (e : exn) (pre : stdout) :
      raised_at w e pre -> isinstance e ImportError = true ->
      accepts w pre [NotInstalled; InstallHint] ->
      run_case w ((pre ++ [NotInstalled; InstallHint])%list, Ok tt)
  | case_not_installed_unprinted (e e' : exn) (pre : stdout) :
      raised_at w e pre -> isinstance e ImportError = true ->
      write w (map text pre) (text NotInstalled) = Raise e' ->
      run_case w (pre, Raise e')
  | case_hint_unprinted (e e' : exn) (pre : stdout) :
      raised_at w e pre -> isinstance e ImportError = true ->
      write w (map text pre) (text NotInstalled) = Ok tt ->
      write w (map text (pre ++ [NotInstalled])) (text InstallHint) = Raise e' ->
      run_case w ((pre ++ [NotInstalled])%list, Raise e')
  | case_error (e : exn) (pre : stdout) (s : string) :
      raised_at w e pre ->
      isinstance e ImportError = false -> isinstance e Exception = true ->
      exn_str e = Text s ->
      write w (map text pre) (text (ErrorMsg s)) = Ok tt ->
      run_case w ((pre ++ [ErrorMsg s])%list, Ok tt)
  | case_error_str_raises (e e' : exn) (pre : stdout) :
      raised_at w e pre ->
      isinstance e ImportError = false -> isinstance e Exception = true ->
      exn_str e = StrRaises e' ->
      run_case w (pre, Raise e')
  | case_error_unprinted (e e' : exn) (pre : stdout) (s : string) :
      raised_at w e pre ->
      isinstance e ImportError = false -> isinstance e Exception = true ->
      exn_str e = Text s ->
      write w (map text pre) (text (ErrorMsg s)) = Raise e' ->
      run_case w (pre, Raise e')
  | case_uncaught (e : exn) (pre : stdout) :
      raised_at w e pre -> isinstance e Exception = false ->
      run_case w (pre, Raise e).

(** ** Counting terminal outcomes *)

(** The lines the [try] body prints itself, as opposed to the lines of
    the handlers. *)
Definition is_progress (m : message) : bool :=
  match m with
  | NotInstalled | InstallHint | ErrorMsg _ => false
  | _ => true
  end.

Definition is_success (m : message) : bool :=
  match m with Success => true | _ => false end.
Definition is_size (m : message) : bool :=
  match m with FileSize _ => true | _ => false end.
Definition is_not_found (m : message) : bool :=
  match m with NotFound => true | _ => false end.
Definition is_not_installed (m : message) : bool :=
  match m with NotInstalled => true | _ => false end.
Definition is_install_hint (m : message) : bool :=
  match m with InstallHint => true | _ => false end.
Definition is_error (m : message) : bool :=
  match m with ErrorMsg _ => true | _ => false end.

(** The success message with its size line. *)
Definition shows_success (out : stdout) : bool :=
  existsb is_success out && existsb is_size out.

(** The file-not-found message. *)
Definition shows_not_found (out : stdout) : bool :=
  existsb is_not_found out.

(** The missing-dependency message pair. *)
Definition shows_not_installed (out : stdout) : bool :=
  existsb is_not_installed out && existsb is_install_hint out.

(** The generic error message. *)
Definition shows_error (out : stdout) : bool :=
  existsb is_error out.

(** How many of the four terminal outcomes the output shows. *)
Definition terminal_outcomes (out : stdout) : nat :=
  length (filter (fun b : bool => b)
            [shows_success out; shows_not_found out;
             shows_not_installed out; shows_error out]).

(** The first line of each terminal outcome message: the success line,
    the not-found line, the not-installed line, a generic error line. *)
Definition is_outcome_line (m : message) : bool :=
  is_success m || is_not_found m || is_not_installed m || is_error m.

(** How many outcome messages are printed, complete or not. *)
Definition outcome_lines (out : stdout) : nat :=
  length (filter is_outcome_line out).

(** ** Sample worlds *)

(** A stream that takes every line, such as a UTF-8 terminal. *)
Definition utf8_stdout (hist : list string) (s : string) : result unit :=
  Ok tt.

Fixpoint ascii_only (s : string) : bool :=
  match s with
  | EmptyString => true
  | String c s' => (N_of_ascii c <? 128)%N && ascii_only s'
  end.

Definition UnicodeEncodeError : exc_class :=
  Subclass "UnicodeEncodeError" (Subclass "UnicodeError" ValueError).

(** The errors an ASCII stream raises for the lines of the script: those
    it refuses all start with one of the two symbols. *)
Definition cannot_encode (escape : string) : exn :=
  mkExn UnicodeEncodeError
    (Text ("'ascii' codec can't encode character '" ++ escape
           ++ "' in position 0: ordinal not in range(128)")).

Definition cannot_encode_check : exn := cannot_encode "\u2705".
Definition cannot_encode_cross : exn := cannot_encode "\u274c".

Definition encode_error (s : string) : exn :=
  if prefix "✅" s then cannot_encode_check else cannot_encode_cross.

(** A stream with the ASCII encoding, as under [LC_ALL=C] or
    [PYTHONIOENCODING=ascii]. *)
Definition ascii_stdout (hist : list string) (s : string) : result unit :=
  if ascii_only s then Ok tt else Raise (encode_error s).


(** The same world with another standard output. *)
Definition with_stdout (wr : list string -> string -> result unit)
    (fl : result unit) (w : world) : world :=
  mkWorld (import_YOLO w) (import_os w) (YOLO w) (export w)
          (path_exists w) (path_getsize w) wr fl.

(** Standard output in ASCII. *)
Definition on_ascii (w : world) : world :=
  with_stdout ascii_stdout (Ok tt) w.


Definition ckpt : model := Model "yolov8n-pose.pt".

(** Everything works and the exported file has [n] bytes. *)
Definition world_ok (n : N) : world :=
  mkWorld (Ok tt) (Ok tt) (fun _ => Ok ckpt) (fun _ _ => Ok tt)
          (fun _ => true) (fun _ => Ok n) utf8_stdout (Ok tt).

Definition no_such_file : exn :=
  mkExn FileNotFoundError
    (Text "[Errno 2] No such file or directory: 'yolov8n-pose.onnx'").

(** The export returns but leaves no file behind. *)
Definition world_no_file : world :=
  mkWorld (Ok tt) (Ok tt) (fun _ => Ok ckpt) (fun _ _ => Ok tt)
          (fun _ => false) (fun _ => Raise no_such_file) utf8_stdout (Ok tt).

(** The import of the library fails with [e]. *)
Definition world_import_raises (e : exn) : world :=
  mkWorld (Raise e) (Ok tt) (fun _ => Ok ckpt) (fun _ _ => Ok tt)
          (fun _ => false) (fun _ => Raise no_such_file) utf8_stdout (Ok tt).

(** ultralytics is not installed. *)
Definition no_module : exn :=
  mkExn ModuleNotFoundError (Text "No module named 'ultralytics'").

Definition world_not_installed : world := world_import_raises no_module.

(** The export fails with [e]. *)
Definition world_export_raises (e : exn) : world :=
  mkWorld (Ok tt) (Ok tt) (fun _ => Ok ckpt) (fun _ _ => Raise e)
          (fun _ => false) (fun _ => Raise no_such_file) utf8_stdout (Ok tt).

(** Loading the checkpoint fails with [e]. *)
Definition world_load_raises (e : exn) : world :=
  mkWorld (Ok tt) (Ok tt) (fun _ => Raise e) (fun _ _ => Ok tt)
          (fun _ => false) (fun _ => Raise no_such_file) utf8_stdout (Ok tt).

(** The file is there when looked for and gone when measured. *)
Definition world_size_raises (e : exn) : world :=
  mkWorld (Ok tt) (Ok tt) (fun _ => Ok ckpt) (fun _ _ => Ok tt)
          (fun _ => true) (fun _ => Raise e) utf8_stdout (Ok tt).

(** *** Exceptions used in the examples *)

(** Ctrl-C: raised wherever the interpreter happens to be. *)
Definition ctrl_c : exn := mkExn KeyboardInterrupt (Text EmptyString).


Definition disk_full : exn := mkExn OSError (Text "disk full").

(** A shared library of the package fails to load during the import. *)
Definition broken_library : exn :=
  mkExn OSError
    (Text "libtorch_cpu.so: cannot open shared object file: No such file or directory").

(** The export call fails to import one of its own dependencies. *)
Definition no_onnx : exn :=
  mkExn ModuleNotFoundError (Text "No module named 'onnx'").

(** An exception whose [__str__] is itself faulty. *)
Definition bad_str : exn :=
  mkExn RuntimeError
    (StrRaises (mkExn (Subclass "TypeError" Exception)
                  (Text "__str__ returned non-string (type NoneType)"))).

(** Ctrl-C while the library is still being imported. *)
Definition world_import_interrupted : world := world_import_raises ctrl_c.

(** * Properties *)

(** ** Sample sizes and sample runs *)

Example format_half_mib : format_2f (truediv 524288 (1024 * 1024)) = "0.50".
Proof. reflexivity. Qed.

Example format_tie_to_even : format_2f (truediv 131072 (1024 * 1024)) = "0.12".
Proof. reflexivity. Qed.

Example format_tie_to_even_up : format_2f (truediv 393216 (1024 * 1024)) = "0.38".
Proof. reflexivity. Qed.

Example format_empty_file : format_2f (truediv 0 (1024 * 1024)) = "0.00".
Proof. reflexivity. Qed.

Example format_one_byte : format_2f (truediv 1 (1024 * 1024)) = "0.00".
Proof. reflexivity. Qed.

Example format_large : format_2f (truediv 13042483 (1024 * 1024)) = "12.44".
Proof. reflexivity. Qed.

Example format_beyond_2_53 :
  format_2f (truediv 4611686018427518977 (1024 * 1024)) = "4398046511104.12".
Proof. vm_compute. reflexivity. Qed.

Example size_threshold :
  format_2f (truediv 5242 (1024 * 1024)) = "0.00" /\
  format_2f (truediv 5243 (1024 * 1024)) = "0.01".
Proof. split; reflexivity. Qed.

Example run_ok_13MB :
  printed (run (world_ok 13042483)) =
    ["Downloading YOLOv8n-Pose model..."; "Exporting to ONNX format...";
     "✅ Success! Model exported to: yolov8n-pose.onnx";
     "   File size: 12.44 MB"] /\
  process_end (world_ok 13042483) = ExitZero.
Proof. split; reflexivity. Qed.

Example run_disk_full :
  printed (run (world_export_raises disk_full)) =
    ["Downloading YOLOv8n-Pose model..."; "Exporting to ONNX format...";
     "❌ Error: disk full"].
Proof. reflexivity. Qed.

(** The file disappears between the existence check and the size query:
    the bare success line is followed by an error line. *)
Example run_file_vanishes :
  printed (run (world_size_raises no_such_file)) =
    ["Downloading YOLOv8n-Pose model..."; "Exporting to ONNX format...";
     "✅ Success! Model exported to: yolov8n-pose.onnx";
     "❌ Error: [Errno 2] No such file or directory: 'yolov8n-pose.onnx'"].
Proof. reflexivity. Qed.

(** On an ASCII stream the success line cannot be written; the error is
    caught, the error line cannot be written either, and that second
    error leaves the module. *)
Example run_ok_on_ascii :
  run (on_ascii (world_ok 13042483)) =
    ([Downloading; Exporting], Raise cannot_encode_cross) /\
  exn_str cannot_encode_cross =
    Text "'ascii' codec can't encode character '\u274c' in position 0: ordinal not in range(128)".
Proof. split; reflexivity. Qed.

(** ** The class tree *)

Lemma issubclass_In (c d : exc_class) :
  issubclass c d = true <-> In d (mro c).
Proof.
  unfold issubclass. destruct (in_dec exc_class_eq_dec d (mro c)); split;
    intros; try assumption; try reflexivity; try discriminate; contradiction.
Qed.

Lemma issubclass_refl (c : exc_class) : issubclass c c = true.
Proof. apply issubclass_In. destruct c; simpl; auto. Qed.

(** Every class derives from [BaseException]. *)
Lemma issubclass_BaseException (c : exc_class) :
  issubclass c BaseException = true.
Proof.
  apply issubclass_In. induction c; simpl; auto 10.
Qed.

(** [ImportError] sits below [Exception]: whatever the first [except]
    clause accepts, the second would accept too. *)
Lemma ImportError_is_Exception (c : exc_class) :
  issubclass c ImportError = true -> issubclass c Exception = true.
Proof.
  rewrite !issubclass_In.
  induction c; simpl; intros H;
    repeat (destruct H as [H | H]; try discriminate H); auto 10.
Qed.

Lemma isinstance_ImportError_Exception (e : exn) :
  isinstance e ImportError = true -> isinstance e Exception = true.
Proof. apply ImportError_is_Exception. Qed.

(** ** The monad *)

Lemma bind_Ok {A B} (c : io A) (k : A -> io B) out out' a :
  c out = (out', Ok a) -> bind c k out = k a out'.
Proof. unfold bind. intros ->. reflexivity. Qed.

Lemma bind_Raise {A B} (c : io A) (k : A -> io B) out out' e :
  c out = (out', Raise e) -> bind c k out = (out', Raise e).
Proof. unfold bind. intros ->. reflexivity. Qed.

Lemma call_Ok {A B} (r : result A) (k : A -> io B) out a :
  r = Ok a -> bind (call r) k out = k a out.
Proof. intros ->. reflexivity. Qed.

Lemma call_Raise {A B} (r : result A) (k : A -> io B) out e :
  r = Raise e -> bind (call r) k out = (out, Raise e).
Proof. intros ->. reflexivity. Qed.

Lemma print_Ok (w : world) (m : message) (out : stdout) :
  write w (map text out) (text m) = Ok tt ->
  print w m out = ((out ++ [m])%list, Ok tt).
Proof. unfold print. intros ->. reflexivity. Qed.

Lemma print_Raise (w : world) (m : message) (out : stdout) (e : exn) :
  write w (map text out) (text m) = Raise e ->
  print w m out = (out, Raise e).
Proof. unfold print. intros ->. reflexivity. Qed.

Lemma print_then_Ok {B} (w : world) (m : message) (k : unit -> io B) out :
  write w (map text out) (text m) = Ok tt ->
  bind (print w m) k out = k tt (out ++ [m])%list.
Proof. intros H. apply bind_Ok. apply print_Ok. exact H. Qed.

Lemma print_then_Raise {B} (w : world) (m : message) (k : unit -> io B) out e :
  write w (map text out) (text m) = Raise e ->
  bind (print w m) k out = (out, Raise e).
Proof. intros H. apply bind_Raise. apply print_Raise. exact H. Qed.

(** A result of type [unit] is [Ok tt] or a raise. *)
Lemma result_unit_cases (r : result unit) :
  r = Ok tt \/ exists e, r = Raise e.
Proof. destruct r as [[]|e]; eauto. Qed.

(** ** The paths through the [try] body *)

Lemma export_done_completes (w : world) :
  export_done w <->
  export_completes w /\ accepts w [] [Downloading; Exporting].
Proof.
  unfold export_done, model_loaded, imports_done, export_completes.
  cbn [accepts app]. split.
  - intros (m & ((H1 & H2) & HD & H3) & HE & H4).
    repeat split; try assumption. exists m. split; assumption.
  - intros ((H1 & H2 & m & H3 & H4) & HD & HE & _).
    exists m. repeat split; assumption.
Qed.

Ltac body_call H := rewrite (call_Ok _ _ _ _ H); cbv beta.
Ltac body_print H := rewrite (print_then_Ok _ _ _ _ H); cbv beta; cbn [app].

(** The body up to the existence check. *)
Lemma try_body_after_export (w : world) :
  export_done w ->
  try_body w [] =
    (if path_exists w "yolov8n-pose.onnx"
     then bind (print w Success) (fun _ =>
          bind (call (path_getsize w "yolov8n-pose.onnx")) (fun size =>
          print w (FileSize (truediv size (1024 * 1024)))))
     else print w NotFound) [Downloading; Exporting].
Proof.
  intros (m & ((H1 & H2) & HD & H3) & HE & H4). unfold try_body.
  body_call H1. body_call H2. body_print HD. body_call H3.
  body_print HE. body_call H4. reflexivity.
Qed.

Lemma try_body_success (w : world) (n : N) :
  export_completes w ->
  path_exists w "yolov8n-pose.onnx" = true ->
  path_getsize w "yolov8n-pose.onnx" = Ok n ->
  accepts w [] [Downloading; Exporting; Success;
                FileSize (truediv n (1024 * 1024))] ->
  try_body w [] =
    ([Downloading; Exporting; Success; FileSize (truediv n (1024 * 1024))],
     Ok tt).
Proof.
  intros Hexp Hex Hsz Hacc. cbn [accepts app] in Hacc.
  destruct Hacc as (HD & HE & HS & HF & _).
  rewrite try_body_after_export
    by (apply export_done_completes; cbn [accepts app]; auto).
  rewrite Hex. body_print HS. body_call Hsz. apply print_Ok. exact HF.
Qed.

Lemma try_body_not_found (w : world) :
  export_completes w ->
  path_exists w "yolov8n-pose.onnx" = false ->
  accepts w [] [Downloading; Exporting; NotFound] ->
  try_body w [] = ([Downloading; Exporting; NotFound], Ok tt).
Proof.
  intros Hexp Hex Hacc. cbn [accepts app] in Hacc.
  destruct Hacc as (HD & HE & HN & _).
  rewrite try_body_after_export
    by (apply export_done_completes; cbn [accepts app]; auto).
  rewrite Hex. apply print_Ok. exact HN.
Qed.

(** A step that raises ends the body there. *)
Lemma raised_at_try_body (w : world) (e : exn) (pre : stdout) :
  raised_at w e pre -> try_body w [] = (pre, Raise e).
Proof.
  intros H.
  destruct H as [H1|H1 H2|[H1 H2] HD|[H1 H2] HD H3
                |m ((H1 & H2) & HD & H3) HE
                |m ((H1 & H2) & HD & H3) HE H4
                |Hd Hex HS|Hd Hex HS Hsz|n Hd Hex HS Hsz HF|Hd Hex HN].
  - unfold try_body. apply (call_Raise _ _ _ _ H1).
  - unfold try_body. body_call H1. apply (call_Raise _ _ _ _ H2).
  - unfold try_body. body_call H1. body_call H2.
    apply (print_then_Raise _ _ _ _ _ HD).
  - unfold try_body. body_call H1. body_call H2. body_print HD.
    apply (call_Raise _ _ _ _ H3).
  - unfold try_body. body_call H1. body_call H2. body_print HD.
    body_call H3. apply (print_then_Raise _ _ _ _ _ HE).
  - unfold try_body. body_call H1. body_call H2. body_print HD.
    body_call H3. body_print HE. apply (call_Raise _ _ _ _ H4).
  - rewrite (try_body_after_export w Hd), Hex.
    apply (print_then_Raise _ _ _ _ _ HS).
  - rewrite (try_body_after_export w Hd), Hex. body_print HS.
    apply (call_Raise _ _ _ _ Hsz).
  - rewrite (try_body_after_export w Hd), Hex. body_print HS.
    body_call Hsz. apply print_Raise. exact HF.
  - rewrite (try_body_after_export w Hd), Hex. apply print_Raise. exact HN.
Qed.

(** The lines printed before an exception are an initial part of the
    three lines the body prints ahead of the size line. *)
Lemma raised_at_prefix (w : world) (e : exn) (pre : stdout) :
  raised_at w e pre ->
  In pre [[]; [Downloading]; [Downloading; Exporting];
          [Downloading; Exporting; Success]].
Proof. intros H. destruct H; simpl; auto. Qed.

(** The body ends in one of three ways: with the size line, with the
    not-found line, or at a step that raises. *)
Lemma try_body_cases (w : world) :
  (exists n : N,
     export_completes w /\ path_exists w "yolov8n-pose.onnx" = true /\
     path_getsize w "yolov8n-pose.onnx" = Ok n /\
     accepts w [] [Downloading; Exporting; Success;
                   FileSize (truediv n (1024 * 1024))])
  \/ (export_completes w /\ path_exists w "yolov8n-pose.onnx" = false /\
      accepts w [] [Downloading; Exporting; NotFound])
  \/ (exists e pre, raised_at w e pre).
Proof.
  destruct (import_YOLO w) as [[]|e] eqn:H1;
    [|right; right; exists e, []; apply at_import_YOLO; exact H1].
  destruct (import_os w) as [[]|e] eqn:H2;
    [|right; right; exists e, []; apply at_import_os; assumption].
  assert (Hi : imports_done w) by (split; assumption).
  destruct (write w (map text []) (text Downloading)) as [[]|e] eqn:HD;
    [|right; right; exists e, []; apply at_print_downloading; assumption].
  destruct (YOLO w "yolov8n-pose.pt") as [m|e] eqn:H3;
    [|right; right; exists e, [Downloading]; apply at_acquire; assumption].
  assert (Hm : model_loaded w m) by (repeat split; assumption).
  destruct (write w (map text [Downloading]) (text Exporting))
    as [[]|e] eqn:HE;
    [|right; right; exists e, [Downloading];
      apply (at_print_exporting _ _ m); assumption].
  destruct (export w m (mkArgs "onnx" 640 true)) as [[]|e] eqn:H4;
    [|right; right; exists e, [Downloading; Exporting];
      apply (at_export _ _ m); assumption].
  assert (Hd : export_done w) by (exists m; repeat split; assumption).
  assert (Hc : export_completes w) by (apply export_done_completes, Hd).
  destruct (path_exists w "yolov8n-pose.onnx") eqn:Hex.
  - destruct (write w (map text [Downloading; Exporting]) (text Success))
      as [[]|e] eqn:HS;
      [|right; right; exists e, [Downloading; Exporting];
        apply at_print_success; assumption].
    destruct (path_getsize w "yolov8n-pose.onnx") as [n|e] eqn:Hsz;
      [|right; right; exists e, [Downloading; Exporting; Success];
        apply at_getsize; assumption].
    destruct (write w (map text [Downloading; Exporting; Success])
                (text (FileSize (truediv n (1024 * 1024)))))
      as [[]|e] eqn:HF;
      [|right; right; exists e, [Downloading; Exporting; Success];
        apply (at_print_size _ _ n); assumption].
    left. exists n. refine (conj Hc (conj eq_refl (conj eq_refl _))).
    cbn [accepts app]. repeat split; assumption.
  - destruct (write w (map text [Downloading; Exporting]) (text NotFound))
      as [[]|e] eqn:HN;
      [|right; right; exists e, [Downloading; Exporting];
        apply at_print_not_found; assumption].
    right; left. refine (conj Hc (conj eq_refl _)).
    cbn [accepts app]. repeat split; assumption.
Qed.

(** At most one step raises: the body is a straight line. *)
Lemma raised_at_unique (w : world) (e1 e2 : exn) (pre1 pre2 : stdout) :
  raised_at w e1 pre1 -> raised_at w e2 pre2 -> e1 = e2 /\ pre1 = pre2.
Proof.
  intros H1 H2. apply raised_at_try_body in H1, H2.
  rewrite H1 in H2. injection H2 as -> ->. split; reflexivity.
Qed.

Lemma raised_at_in_try (w : world) (e : exn) (pre : stdout) :
  raised_at w e pre <-> raised_in_try w = Some e /\ printed_in_try w = pre.
Proof.
  unfold raised_in_try, printed_in_try. split.
  - intros H. rewrite (raised_at_try_body w e pre H). split; reflexivity.
  - intros [Hr Hp].
    destruct (try_body_cases w)
      as [(n & Hc & Hex & Hsz & Hacc)|[(Hc & Hex & Hacc)|(e' & pre' & Hat)]].
    + rewrite (try_body_success w n Hc Hex Hsz Hacc) in Hr. discriminate Hr.
    + rewrite (try_body_not_found w Hc Hex Hacc) in Hr. discriminate Hr.
    + rewrite (raised_at_try_body w e' pre' Hat) in Hr, Hp.
      cbn [fst snd] in Hr, Hp. injection Hr as <-. subst pre'. exact Hat.
Qed.

(** ** What the [try] statement does with the outcome of its body *)

(** No exception: the handlers are skipped. *)
Lemma run_no_raise (w : world) (out : stdout) :
  try_body w [] = (out, Ok tt) -> run w = (out, Ok tt).
Proof. unfold run, script, try_except. intros ->. reflexivity. Qed.

(** An exception: the first clause it is an instance of takes it. *)
Lemma run_after_raise (w : world) (e : exn) (pre : stdout) :
  raised_at w e pre ->
  run w = if isinstance e ImportError then on_import_error w e pre
          else if isinstance e Exception then on_exception w e pre
          else (pre, Raise e).
Proof.
  intros H. unfold run, script, try_except.
  rewrite (raised_at_try_body w e pre H). cbn [find fst snd].
  destruct (isinstance e ImportError); [reflexivity|].
  destruct (isinstance e Exception); reflexivity.
Qed.

Lemma run_success (w : world) (n : N) :
  export_completes w ->
  path_exists w "yolov8n-pose.onnx" = true ->
  path_getsize w "yolov8n-pose.onnx" = Ok n ->
  accepts w [] [Downloading; Exporting; Success;
                FileSize (truediv n (1024 * 1024))] ->
  run w = ([Downloading; Exporting; Success;
            FileSize (truediv n (1024 * 1024))], Ok tt).
Proof.
  intros Hc Hex Hsz Hacc. apply run_no_raise.
  apply try_body_success; assumption.
Qed.

Lemma run_not_found (w : world) :
  export_completes w ->
  path_exists w "yolov8n-pose.onnx" = false ->
  accepts w [] [Downloading; Exporting; NotFound] ->
  run w = ([Downloading; Exporting; NotFound], Ok tt).
Proof.
  intros Hc Hex Hacc. apply run_no_raise.
  apply try_body_not_found; assumption.
Qed.

(** An [ImportError]: the first clause prints its two lines. *)
Lemma run_not_installed (w : world) (e : exn) (pre : stdout) :
  raised_at w e pre -> isinstance e ImportError = true ->
  accepts w pre [NotInstalled; InstallHint] ->
  run w = ((pre ++ [NotInstalled; InstallHint])%list, Ok tt).
Proof.
  intros Hat Him (HN & HH & _).
  rewrite (run_after_raise w e pre Hat), Him. unfold on_import_error.
  rewrite (print_then_Ok _ _ _ _ HN). cbv beta.
  rewrite (print_Ok _ _ _ HH), <- app_assoc. reflexivity.
Qed.

(** Another [Exception]: the first clause is passed over, the second
    prints the error line. *)
Lemma run_error (w : world) (e : exn) (pre : stdout) (s : string) :
  raised_at w e pre ->
  isinstance e ImportError = false -> isinstance e Exception = true ->
  exn_str e = Text s ->
  write w (map text pre) (text (ErrorMsg s)) = Ok tt ->
  run w = ((pre ++ [ErrorMsg s])%list, Ok tt).
Proof.
  intros Hat Him Hex Hs HE.
  rewrite (run_after_raise w e pre Hat), Him, Hex.
  unfold on_exception, str. rewrite Hs.
  rewrite (call_Ok _ _ _ _ eq_refl). apply print_Ok. exact HE.
Qed.

(** Anything else: no clause matches and the exception leaves the
    module. *)
Lemma run_uncaught (w : world) (e : exn) (pre : stdout) :
  raised_at w e pre -> isinstance e Exception = false ->
  run w = (pre, Raise e).
Proof.
  intros Hat Hex. rewrite (run_after_raise w e pre Hat), Hex.
  destruct (isinstance e ImportError) eqn:Him; [|reflexivity].
  apply isinstance_ImportError_Exception in Him. congruence.
Qed.

(** Every run is one of the cases of [run_case]. *)
Lemma run_case_run (w : world) : run_case w (run w).
Proof.
  destruct (try_body_cases w)
    as [(n & Hc & Hex & Hsz & Hacc)|[(Hc & Hex & Hacc)|(e & pre & Hat)]].
  - rewrite (run_success w n Hc Hex Hsz Hacc).
    apply case_success; assumption.
  - rewrite (run_not_found w Hc Hex Hacc). apply case_not_found; assumption.
  - destruct (isinstance e Exception) eqn:Hexc.
    2:{ rewrite (run_uncaught w e pre Hat Hexc).
        apply (case_uncaught w e pre); assumption. }
    destruct (isinstance e ImportError) eqn:Him.
    + destruct (result_unit_cases (write w (map text pre) (text NotInstalled)))
        as [HN|[e' HN]].
      * destruct (result_unit_cases
                    (write w (map text (pre ++ [NotInstalled]))
                       (text InstallHint))) as [HH|[e' HH]].
        -- rewrite (run_not_installed w e pre Hat Him (conj HN (conj HH I))).
           apply (case_not_installed w e pre); cbn [accepts]; auto.
        -- rewrite (run_after_raise w e pre Hat), Him. unfold on_import_error.
           rewrite (print_then_Ok _ _ _ _ HN). cbv beta.
           rewrite (print_Raise _ _ _ _ HH).
           apply (case_hint_unprinted w e e' pre); assumption.
      * rewrite (run_after_raise w e pre Hat), Him. unfold on_import_error.
        rewrite (print_then_Raise _ _ _ _ _ HN).
        apply (case_not_installed_unprinted w e e' pre); assumption.
    + destruct (exn_str e) as [s|e'] eqn:Hs.
      * destruct (result_unit_cases
                    (write w (map text pre) (text (ErrorMsg s))))
          as [HE|[e' HE]].
        -- rewrite (run_error w e pre s Hat Him Hexc Hs HE).
           apply (case_error w e pre s); assumption.
        -- rewrite (run_after_raise w e pre Hat), Him, Hexc.
           unfold on_exception, str. rewrite Hs.
           rewrite (call_Ok _ _ _ _ eq_refl). cbv beta.
           rewrite (print_Raise _ _ _ _ HE).
           apply (case_error_unprinted w e e' pre s); assumption.
      * rewrite (run_after_raise w e pre Hat), Him, Hexc.
        unfold on_exception, str. rewrite Hs.
        rewrite (call_Raise _ _ _ _ eq_refl).
        apply (case_error_str_raises w e e' pre); assumption.
Qed.

(** A handler that does not run to its end raises. *)
Lemma handler_succeeds_dec (w : world) (e : exn) (pre : stdout) :
  handler_succeeds w e pre \/ ~ handler_succeeds w e pre.
Proof.
  unfold handler_succeeds. destruct (isinstance e ImportError).
  - cbn [accepts].
    destruct (result_unit_cases (write w (map text pre) (text NotInstalled)))
      as [HN|[e' HN]].
    + destruct (result_unit_cases
                  (write w (map text (pre ++ [NotInstalled]))
                     (text InstallHint))) as [HH|[e' HH]].
      * left. auto.
      * right. intros (_ & HH' & _). congruence.
    + right. intros (HN' & _). congruence.
  - destruct (exn_str e) as [s|e'] eqn:Hs.
    + destruct (result_unit_cases (write w (map text pre) (text (ErrorMsg s))))
        as [HE|[e' HE]].
      * left. exists s. cbn [accepts]. auto.
      * right. intros (s' & [= <-] & HE' & _). congruence.
    + right. intros (s' & Hs' & _). discriminate Hs'.
Qed.

(** ** Rounding, true division and the printed size *)

(** [round_half_even] is within half a unit of the exact quotient. *)
Lemma round_half_even_nearest (num den : Z) :
  0 < den -> 2 * Z.abs (num - round_half_even num den * den) <= den.
Proof.
  intros Hden. unfold round_half_even.
  pose proof (Z.div_mod num den ltac:(lia)) as Hdm.
  pose proof (Z.mod_pos_bound num den Hden) as Hr.
  destruct (Z.ltb_spec (2 * (num mod den)) den);
    [|destruct (Z.ltb_spec den (2 * (num mod den)));
      [|destruct (Z.even (num / den))]]; nia.
Qed.

(** A common positive factor of numerator and denominator does not
    change the rounded quotient. *)
Lemma round_half_even_scale (k num den : Z) :
  0 < k -> 0 < den ->
  round_half_even (k * num) (k * den) = round_half_even num den.
Proof.
  intros Hk Hden. unfold round_half_even.
  rewrite Z.div_mul_cancel_l by lia.
  rewrite Z.mul_mod_distr_l by lia.
  replace (2 * (k * (num mod den)) <? k * den) with (2 * (num mod den) <? den).
  2:{ destruct (Z.ltb_spec (2 * (num mod den)) den),
        (Z.ltb_spec (2 * (k * (num mod den))) (k * den));
        try reflexivity; nia. }
  replace (k * den <? 2 * (k * (num mod den))) with (den <? 2 * (num mod den)).
  2:{ destruct (Z.ltb_spec den (2 * (num mod den))),
        (Z.ltb_spec (k * den) (2 * (k * (num mod den))));
        try reflexivity; nia. }
  reflexivity.
Qed.

Lemma round_half_even_exact (q den : Z) :
  0 < den -> round_half_even (q * den) den = q.
Proof.
  intros Hden. unfold round_half_even.
  rewrite Z.div_mul, Z.mod_mul by lia.
  destruct (Z.ltb_spec (2 * 0) den); [reflexivity | lia].
Qed.

(** Below [2^53] bytes the division by [1024*1024] is exact: the size
    itself, shifted to 53 bits, is the significand. *)
Lemma truediv_MiB_exact (n : N) :
  (0 < n < 2 ^ 53)%N ->
  truediv n (1024 * 1024) =
    mkFloat (Z.of_N n * 2 ^ (52 - Z.log2 (Z.of_N n))) (Z.log2 (Z.of_N n) - 72).
Proof.
  intros [Hpos Hlt]. unfold truediv.
  destruct (N.eqb_spec n 0); [lia|].
  set (a := Z.of_N n).
  assert (Ha : 0 < a < 2 ^ 53) by (subst a; split; [lia|];
    change (2 ^ 53) with (Z.of_N (2 ^ 53)); lia).
  change (Z.of_N (1024 * 1024)) with (2 ^ 20).
  change (Z.log2 (2 ^ 20)) with 20.
  set (l := Z.log2 a).
  assert (Hl : 0 <= l < 53).
  { subst l. split; [apply Z.log2_nonneg|]. apply Z.log2_lt_pow2; lia. }
  pose proof (Z.log2_spec a ltac:(lia)) as Hspec. fold l in Hspec.
  assert (Hscaled : forall k, 0 <= k -> k <= 1 ->
            scaled a (2 ^ 20) (l - 20 - 53 + k) =
              (a * 2 ^ (53 - k - l) * 2 ^ 20, 2 ^ 20)).
  { intros k Hk0 Hk. unfold scaled.
    destruct (Z.leb_spec 0 (l - 20 - 53 + k)); [lia|].
    f_equal. rewrite <- Z.mul_assoc, <- Z.pow_add_r by lia.
    f_equal. f_equal. lia. }
  pose proof (Hscaled 0 ltac:(lia) ltac:(lia)) as H0.
  rewrite Z.add_0_r, Z.sub_0_r in H0. rewrite H0. cbn [fst snd].
  rewrite Z.div_mul by lia.
  assert (Hbig : 2 ^ 53 <= a * 2 ^ (53 - l)).
  { replace 53 with (l + (53 - l)) at 1 by lia.
    rewrite Z.pow_add_r by lia. apply Z.mul_le_mono_nonneg_r; lia. }
  destruct (Z.ltb_spec (a * 2 ^ (53 - l)) (2 ^ 53)); [lia|].
  pose proof (Hscaled 1 ltac:(lia) ltac:(lia)) as H1.
  rewrite H1. cbn [fst snd].
  rewrite round_half_even_exact by lia.
  replace (53 - 1 - l) with (52 - l) by lia.
  assert (Hsmall : a * 2 ^ (52 - l) < 2 ^ 53).
  { replace 53 with ((l + 1) + (52 - l)) by lia.
    rewrite Z.pow_add_r by lia. apply Z.mul_lt_mono_pos_r; lia. }
  destruct (Z.eqb_spec (a * 2 ^ (52 - l)) (2 ^ 53)); [lia|].
  f_equal. lia.
Qed.

(** So the number printed is the exact quotient [n / 2^20], in
    hundredths, rounded to nearest with ties to even. *)
Lemma hundredths_MiB_exact (n : N) :
  (n < 2 ^ 53)%N ->
  hundredths (truediv n (1024 * 1024)) =
    round_half_even (100 * Z.of_N n) (2 ^ 20).
Proof.
  intros Hlt. destruct (N.eqb_spec n 0) as [->|Hn]; [reflexivity|].
  rewrite truediv_MiB_exact by lia.
  set (a := Z.of_N n).
  assert (Ha : 0 < a < 2 ^ 53) by (subst a; split; [lia|];
    change (2 ^ 53) with (Z.of_N (2 ^ 53)); lia).
  set (l := Z.log2 a).
  assert (Hl : 0 <= l < 53).
  { subst l. split; [apply Z.log2_nonneg|]. apply Z.log2_lt_pow2; lia. }
  unfold hundredths. cbn [mant expo].
  destruct (Z.leb_spec 0 (l - 72)); [lia|].
  replace (- (l - 72)) with ((52 - l) + 20) by lia.
  rewrite Z.pow_add_r by lia.
  replace (100 * (a * 2 ^ (52 - l))) with (2 ^ (52 - l) * (100 * a)) by ring.
  apply round_half_even_scale; [apply Z.pow_pos_nonneg; lia | lia].
Qed.

Lemma round_half_even_mono (a b den : Z) :
  0 < den -> a <= b -> round_half_even a den <= round_half_even b den.
Proof.
  intros Hden Hab.
  destruct (Z.eq_dec a b) as [->|Hne]; [lia|].
  pose proof (round_half_even_nearest a den Hden) as Ha.
  pose proof (round_half_even_nearest b den Hden) as Hb.
  destruct (Z_le_gt_dec (round_half_even a den) (round_half_even b den))
    as [Hle|Hgt]; [exact Hle|].
  exfalso. nia.
Qed.

(** Below 5243 bytes the quotient is under half a hundredth. *)
Lemma hundredths_MiB_zero_iff (n : N) :
  (n < 2 ^ 53)%N ->
  hundredths (truediv n (1024 * 1024)) = 0 <-> (n <= 5242)%N.
Proof.
  intros Hlt. rewrite hundredths_MiB_exact by assumption.
  pose proof (round_half_even_nearest (100 * Z.of_N n) (2 ^ 20) ltac:(lia)) as H.
  change (2 ^ 20) with 1048576 in *.
  split; intros H0.
  - rewrite H0 in H. lia.
  - pose proof (round_half_even_mono 0 (100 * Z.of_N n) 1048576
                  ltac:(lia) ltac:(lia)) as Hlo.
    change (round_half_even 0 1048576) with 0 in Hlo. lia.
Qed.

Lemma round_half_even_nonneg (num den : Z) :
  0 <= num -> 0 < den -> 0 <= round_half_even num den.
Proof.
  intros Hnum Hden.
  pose proof (round_half_even_mono 0 num den Hden Hnum) as H.
  replace (round_half_even 0 den) with 0 in H; [exact H|].
  unfold round_half_even. rewrite Z.div_0_l, Z.mod_0_l by lia.
  destruct (Z.ltb_spec (2 * 0) den); [reflexivity | lia].
Qed.

Lemma scaled_sign (a b e : Z) :
  0 <= a -> 0 < b -> 0 <= fst (scaled a b e) /\ 0 < snd (scaled a b e).
Proof.
  intros Ha Hb. unfold scaled. destruct (Z.leb_spec 0 e); cbn [fst snd].
  - split; [lia|]. apply Z.mul_pos_pos; [lia|]. apply Z.pow_pos_nonneg; lia.
  - split; [|lia]. apply Z.mul_nonneg_nonneg; [lia|].
    apply Z.pow_nonneg. lia.
Qed.

Lemma truediv_mant_nonneg (a b : N) :
  (0 < b)%N -> 0 <= mant (truediv a b).
Proof.
  intros Hb. unfold truediv. destruct (a =? 0)%N; [cbn [mant]; lia|].
  cbv zeta.
  match goal with
  | |- context [round_half_even (fst (scaled ?x ?y ?e)) _] =>
      destruct (scaled_sign x y e ltac:(lia) ltac:(lia)) as [Hf Hs];
      pose proof (round_half_even_nonneg _ _ Hf Hs) as Hm;
      destruct (round_half_even (fst (scaled x y e)) (snd (scaled x y e))
                =? 2 ^ 53); cbn [mant]; [lia | exact Hm]
  end.
Qed.

Lemma hundredths_nonneg (x : pyfloat) :
  0 <= mant x -> 0 <= hundredths x.
Proof.
  intros Hm. unfold hundredths. destruct (Z.leb_spec 0 (expo x)).
  - apply Z.mul_nonneg_nonneg; [lia|]. apply Z.pow_nonneg. lia.
  - apply round_half_even_nonneg; [lia|]. apply Z.pow_pos_nonneg; lia.
Qed.

Lemma hundredths_size_nonneg (n : N) :
  0 <= hundredths (truediv n (1024 * 1024)).
Proof. apply hundredths_nonneg, truediv_mant_nonneg. reflexivity. Qed.

(** What the format writes, read back without the model's own printer:
    an integer part that the library's decimal reader takes as a numeral
    [d] without leading zeros, a point, and the two characters with codes
    [48 + t] and [48 + u] -- the digits [t] and [u] -- which together
    spell the hundredths. *)
Lemma format_2f_reads (x : pyfloat) :
  0 <= hundredths x ->
  exists (ip : string) (d : Decimal.uint) (t u : N),
    format_2f x =
      ip ++ "." ++ String (ascii_of_N (48 + t))
                     (String (ascii_of_N (48 + u)) EmptyString) /\
    NilZero.uint_of_string ip = Some d /\ unorm d = d /\
    (t <= 9)%N /\ (u <= 9)%N /\
    100 * Z.of_N (N.of_uint d) + 10 * Z.of_N t + Z.of_N u = hundredths x.
Proof.
  intros Hq. set (q := hundredths x) in *.
  exists (decimal (q / 100)), (N.to_uint (Z.to_N (q / 100))),
         (Z.to_N (q mod 100 / 10)), (Z.to_N (q mod 10)).
  assert (Hip : 0 <= q / 100) by (apply Z.div_pos; lia).
  assert (Ht : 0 <= q mod 100 / 10 <= 9)
    by (Z.to_euclidean_division_equations; lia).
  assert (Hu : 0 <= q mod 10 <= 9)
    by (Z.to_euclidean_division_equations; lia).
  split; [|split; [|split; [|split; [|split]]]].
  - unfold format_2f. fold q. reflexivity.
  - unfold decimal. apply NilZero.usu.
    destruct (Z.to_N (q / 100)) as [|p]; [discriminate|].
    apply DecimalPos.Unsigned.to_uint_nonnil.
  - rewrite <- (DecimalN.Unsigned.to_of (N.to_uint (Z.to_N (q / 100)))).
    rewrite DecimalN.Unsigned.of_to. reflexivity.
  - lia.
  - lia.
  - rewrite DecimalN.Unsigned.of_to, !Z2N.id by lia.
    Z.to_euclidean_division_equations; lia.
Qed.

(** ** Worlds whose standard output takes every line *)

Lemma accepts_all (w : world) :
  (forall hist s, write w hist s = Ok tt) ->
  forall (ms : list message) (out : stdout), accepts w out ms.
Proof.
  intros Hw ms. induction ms as [|m ms IH]; intros out; cbn [accepts].
  - exact I.
  - split; [apply Hw | apply IH].
Qed.

Lemma export_completes_sample (n : N) : export_completes (world_ok n).
Proof. repeat split. exists ckpt. split; reflexivity. Qed.

Lemma export_completes_no_file : export_completes world_no_file.
Proof. repeat split. exists ckpt. split; reflexivity. Qed.

(** * The claims *)

(** C1 (as amended).  An exception raised by any step of the [try] body
    that is an instance of [Exception] but not of [ImportError], whose
    [str(e)] returns a text [s] and whose error line standard output
    accepts, is reported by the generic handler: after what the body had
    printed comes one line, ["❌ Error: "] followed by [s], and nothing
    leaves the module. *)
Theorem C1_other_exception_reported
    (w : world) (e : exn) (pre : stdout) (s : string) :
  raised_at w e pre ->
  isinstance e Exception = true ->
  isinstance e ImportError = false ->
  exn_str e = Text s ->
  write w (map text pre) (text (ErrorMsg s)) = Ok tt ->
  run w = ((pre ++ [ErrorMsg s])%list, Ok tt) /\
  printed (run w) = (map text pre ++ [("❌ Error: " ++ s)%string])%list /\
  returns_normally (run w).
Proof.
  intros Hat Hex Him Hs HE.
  pose proof (run_error w e pre s Hat Him Hex Hs HE) as Hrun.
  unfold printed, returns_normally. rewrite Hrun.
  cbn [fst snd]. rewrite map_app. repeat split.
Qed.

(** Scenario C of the specification: the export call raises an error
    with message "disk full". *)
Lemma C1_disk_full_witness :
  raised_at (world_export_raises disk_full) disk_full [Downloading; Exporting] /\
  printed (run (world_export_raises disk_full)) =
    ["Downloading YOLOv8n-Pose model..."; "Exporting to ONNX format...";
     "❌ Error: disk full"].
Proof.
  assert (H : raised_at (world_export_raises disk_full) disk_full
                [Downloading; Exporting])
    by (apply raised_at_in_try; split; reflexivity).
  split; [exact H|].
  exact (proj1 (proj2 (C1_other_exception_reported
           (world_export_raises disk_full) disk_full [Downloading; Exporting]
           "disk full" H eq_refl eq_refl eq_refl eq_refl))).
Defined.

(** C1 fails as stated, in three ways.  Ctrl-C while the checkpoint is
    downloading is an exception other than an import failure, raised by
    the acquire step: no error line is printed and it leaves the module.
    On an ASCII standard output a failed export is caught, but the error
    line cannot be written and the encoding error leaves the module.
    And when [str(e)] itself raises there is no text to print: what it
    raises leaves the module. *)
Lemma C1_not_every_exception_reported :
  (raised_at (world_load_raises ctrl_c) ctrl_c [Downloading] /\
   isinstance ctrl_c ImportError = false /\
   run (world_load_raises ctrl_c) = ([Downloading], Raise ctrl_c))
  /\
  (raised_at (on_ascii (world_export_raises disk_full)) disk_full
     [Downloading; Exporting] /\
   isinstance disk_full ImportError = false /\
   run (on_ascii (world_export_raises disk_full)) =
     ([Downloading; Exporting], Raise cannot_encode_cross))
  /\
  (raised_at (world_export_raises bad_str) bad_str [Downloading; Exporting] /\
   isinstance bad_str ImportError = false /\
   exists e', exn_str bad_str = StrRaises e' /\
     run (world_export_raises bad_str) = ([Downloading; Exporting], Raise e')).
Proof.
  repeat split; try (apply raised_at_in_try; split; reflexivity).
  eexists. split; reflexivity.
Qed.

(** C2 (as amended).  When the export has returned, [yolov8n-pose.onnx]
    exists with [n] bytes and standard output accepts the four lines, the
    script prints the success line and then the size line, whose number
    is [n / (1024*1024)] written as an integer part without leading
    zeros, a point and exactly two digits.  Read as a decimal, it is the
    float quotient rounded to hundredths; for sizes below [2^53] bytes
    the float division loses nothing and the number is within half a
    hundredth of the exact quotient. *)
Theorem C2_success_reports_size (w : world) (n : N) :
  export_completes w ->
  path_exists w "yolov8n-pose.onnx" = true ->
  path_getsize w "yolov8n-pose.onnx" = Ok n ->
  accepts w [] [Downloading; Exporting; Success;
                FileSize (truediv n (1024 * 1024))] ->
  run w = ([Downloading; Exporting; Success;
            FileSize (truediv n (1024 * 1024))], Ok tt) /\
  exists (ip : string) (d : Decimal.uint) (t u : N),
    printed (run w) =
      ["Downloading YOLOv8n-Pose model..."; "Exporting to ONNX format...";
       "✅ Success! Model exported to: yolov8n-pose.onnx";
       "   File size: "
         ++ (ip ++ "." ++ String (ascii_of_N (48 + t))
                            (String (ascii_of_N (48 + u)) EmptyString))
         ++ " MB"] /\
    NilZero.uint_of_string ip = Some d /\ unorm d = d /\
    (t <= 9)%N /\ (u <= 9)%N /\
    100 * Z.of_N (N.of_uint d) + 10 * Z.of_N t + Z.of_N u =
      hundredths (truediv n (1024 * 1024)) /\
    ((n < 2 ^ 53)%N ->
     2 * Z.abs (100 * Z.of_N n -
                (100 * Z.of_N (N.of_uint d) + 10 * Z.of_N t + Z.of_N u) * 2 ^ 20)
       <= 2 ^ 20).
Proof.
  intros Hexp Hex Hsz Hacc.
  pose proof (run_success w n Hexp Hex Hsz Hacc) as Hrun.
  split; [exact Hrun|].
  destruct (format_2f_reads (truediv n (1024 * 1024))
              (hundredths_size_nonneg n))
    as (ip & d & t & u & Hfmt & Hd & Hnorm & Ht & Hu & Hq).
  exists ip, d, t, u.
  split; [|split; [|split; [|split; [|split; [|split]]]]]; try assumption.
  - unfold printed. rewrite Hrun. cbn [fst map text]. rewrite Hfmt.
    reflexivity.
  - intros Hlt. rewrite Hq, hundredths_MiB_exact by assumption.
    apply round_half_even_nearest. lia.
Qed.

Lemma C2_witness :
  export_completes (world_ok 13042483) /\
  printed (run (world_ok 13042483)) =
    ["Downloading YOLOv8n-Pose model..."; "Exporting to ONNX format...";
     "✅ Success! Model exported to: yolov8n-pose.onnx";
     "   File size: 12.44 MB"].
Proof.
  split; [apply export_completes_sample|].
  destruct (C2_success_reports_size (world_ok 13042483) 13042483
              (export_completes_sample _) eq_refl eq_refl
              (accepts_all (world_ok 13042483) (fun _ _ => eq_refl) _ _)) as [H _].
  unfold printed. rewrite H. reflexivity.
Defined.

(** C2 fails as stated: with the export done and the file there, an
    ASCII standard output refuses the success line; the script prints the
    two progress lines only and the encoding error of its own error line
    leaves the module. *)
Lemma C2_no_report_on_ascii_stdout :
  export_completes (on_ascii (world_ok 13042483)) /\
  path_exists (on_ascii (world_ok 13042483)) "yolov8n-pose.onnx" = true /\
  path_getsize (on_ascii (world_ok 13042483)) "yolov8n-pose.onnx" =
    Ok 13042483%N /\
  run (on_ascii (world_ok 13042483)) =
    ([Downloading; Exporting], Raise cannot_encode_cross).
Proof.
  split; [|repeat split]. repeat split. exists ckpt. split; reflexivity.
Qed.

(** C3 (as amended).  When importing the library raises an [ImportError]
    (or a subclass, such as [ModuleNotFoundError]) and standard output
    accepts the two lines, the script prints the missing-dependency line
    and the install hint, and nothing leaves the module. *)
Theorem C3_import_failure_reported (w : world) (e : exn) :
  import_YOLO w = Raise e ->
  isinstance e ImportError = true ->
  accepts w [] [NotInstalled; InstallHint] ->
  fst (run w) = [NotInstalled; InstallHint] /\
  text NotInstalled = "❌ Error: ultralytics package not installed" /\
  text InstallHint = "   Install it with: pip install ultralytics" /\
  returns_normally (run w).
Proof.
  intros Himp Him Hacc.
  pose proof (run_not_installed w e [] (at_import_YOLO w e Himp) Him Hacc)
    as Hrun.
  unfold returns_normally. rewrite Hrun. repeat split.
Qed.

Lemma C3_witness :
  import_YOLO world_not_installed = Raise no_module /\
  isinstance no_module ImportError = true /\
  fst (run world_not_installed) = [NotInstalled; InstallHint].
Proof.
  split; [reflexivity|]. split; [reflexivity|].
  exact (proj1 (C3_import_failure_reported world_not_installed no_module
                  eq_refl eq_refl (accepts_all world_not_installed (fun _ _ => eq_refl) _ _))).
Defined.

(** C3 fails as stated, in two ways.  A library that is installed but
    cannot be loaded because one of its shared objects is missing fails
    its import with an [OSError]: the script prints a generic error line,
    not the missing-dependency pair.  And with the library absent, an
    ASCII standard output refuses the first line of the pair: nothing is
    printed and the encoding error leaves the module. *)
Lemma C3_import_failure_not_reported :
  (import_YOLO (world_import_raises broken_library) = Raise broken_library /\
   run (world_import_raises broken_library) =
     ([ErrorMsg "libtorch_cpu.so: cannot open shared object file: No such file or directory"],
      Ok tt))
  /\
  (import_YOLO (on_ascii world_not_installed) = Raise no_module /\
   run (on_ascii world_not_installed) = ([], Raise cannot_encode_cross)).
Proof. repeat split. Qed.

(** C4 (as amended).  When the export has returned, [yolov8n-pose.onnx]
    does not exist and standard output accepts the three lines, the
    script prints the not-found line and nothing is raised. *)
Theorem C4_missing_file_reported (w : world) :
  export_completes w ->
  path_exists w "yolov8n-pose.onnx" = false ->
  accepts w [] [Downloading; Exporting; NotFound] ->
  run w = ([Downloading; Exporting; NotFound], Ok tt) /\
  In "❌ Error: Model file not found after export" (printed (run w)) /\
  returns_normally (run w).
Proof.
  intros Hexp Hex Hacc. pose proof (run_not_found w Hexp Hex Hacc) as Hrun.
  unfold printed, returns_normally. rewrite Hrun.
  repeat split. simpl. auto.
Qed.

Lemma C4_witness :
  export_completes world_no_file /\
  run world_no_file = ([Downloading; Exporting; NotFound], Ok tt).
Proof.
  split; [apply export_completes_no_file|].
  exact (proj1 (C4_missing_file_reported world_no_file
                  export_completes_no_file eq_refl
                  (accepts_all world_no_file (fun _ _ => eq_refl) _ _))).
Defined.

(** C4 fails as stated: with the export done and no file, an ASCII
    standard output refuses the not-found line; the error is caught, its
    own error line is refused too, and that error leaves the module. *)
Lemma C4_not_found_unprinted_on_ascii_stdout :
  export_completes (on_ascii world_no_file) /\
  path_exists (on_ascii world_no_file) "yolov8n-pose.onnx" = false /\
  run (on_ascii world_no_file) =
    ([Downloading; Exporting], Raise cannot_encode_cross).
Proof.
  split; [|repeat split]. repeat split. exists ckpt. split; reflexivity.
Qed.










(** C8 (as amended).  Scenario A: the library is present, the export
    returns, the output file exists with 6,291,456 bytes and standard
    output accepts the four lines.  The success line is shown and the
    size line reads "   File size: 6.00 MB". *)
Theorem C8_six_mebibytes (w : world) :
  export_completes w ->
  path_exists w "yolov8n-pose.onnx" = true ->
  path_getsize w "yolov8n-pose.onnx" = Ok 6291456%N ->
  accepts w [] [Downloading; Exporting; Success;
                FileSize (truediv 6291456 (1024 * 1024))] ->
  printed (run w) =
    ["Downloading YOLOv8n-Pose model..."; "Exporting to ONNX format...";
     "✅ Success! Model exported to: yolov8n-pose.onnx";
     "   File size: 6.00 MB"] /\
  returns_normally (run w).
Proof.
  intros Hexp Hex Hsz Hacc.
  unfold printed, returns_normally.
  rewrite (run_success w _ Hexp Hex Hsz Hacc). split; reflexivity.
Qed.

Lemma C8_witness :
  export_completes (world_ok 6291456) /\
  In "   File size: 6.00 MB" (printed (run (world_ok 6291456))).
Proof.
  split; [apply export_completes_sample|].
  rewrite (proj1 (C8_six_mebibytes (world_ok 6291456)
                    (export_completes_sample _) eq_refl eq_refl
                    (accepts_all (world_ok 6291456)
                       (fun _ _ => eq_refl) _ _))).
  simpl. auto.
Defined.

(** C8 fails as stated: in scenario A on an ASCII standard output the
    success line is refused; only the two progress lines are printed, no
    size is shown, and an encoding error leaves the module. *)
Lemma C8_no_size_on_ascii_stdout :
  export_completes (on_ascii (world_ok 6291456)) /\
  path_exists (on_ascii (world_ok 6291456)) "yolov8n-pose.onnx" = true /\
  path_getsize (on_ascii (world_ok 6291456)) "yolov8n-pose.onnx" =
    Ok 6291456%N /\
  printed (run (on_ascii (world_ok 6291456))) =
    ["Downloading YOLOv8n-Pose model..."; "Exporting to ONNX format..."] /\
  propagates (run (on_ascii (world_ok 6291456))) cannot_encode_cross.
Proof.
  split; [|repeat split]. repeat split. exists ckpt. split; reflexivity.
Qed.

(** C9 (as amended).  An [ImportError] raised by any step of the [try]
    body -- the library import, but also the model load, the export or
    the size query at run time -- is caught by the first clause: when
    standard output accepts the two lines, the missing-dependency pair
    follows what the body had printed, and the exception's own text is
    not reported by a generic error line. *)
Theorem C9_any_import_error_is_missing_dependency
    (w : world) (e : exn) (pre : stdout) :
  raised_at w e pre ->
  isinstance e ImportError = true ->
  accepts w pre [NotInstalled; InstallHint] ->
  run w = ((pre ++ [NotInstalled; InstallHint])%list, Ok tt) /\
  shows_error (fst (run w)) = false.
Proof.
  intros Hat Him Hacc.
  pose proof (run_not_installed w e pre Hat Him Hacc) as Hrun.
  rewrite Hrun. split; [reflexivity|]. cbn [fst].
  destruct Hat; reflexivity.
Qed.

(** The export call itself fails to import one of its own dependencies. *)
Lemma C9_witness :
  raised_at (world_export_raises no_onnx) no_onnx [Downloading; Exporting] /\
  printed (run (world_export_raises no_onnx)) =
    ["Downloading YOLOv8n-Pose model..."; "Exporting to ONNX format...";
     "❌ Error: ultralytics package not installed";
     "   Install it with: pip install ultralytics"].
Proof.
  assert (H : raised_at (world_export_raises no_onnx) no_onnx
                [Downloading; Exporting])
    by (apply raised_at_in_try; split; reflexivity).
  split; [exact H|].
  unfold printed.
  rewrite (proj1 (C9_any_import_error_is_missing_dependency
                    (world_export_raises no_onnx) no_onnx _ H eq_refl
                    (accepts_all (world_export_raises no_onnx)
                       (fun _ _ => eq_refl) _ _))).
  reflexivity.
Defined.

(** C9 fails as stated: on an ASCII standard output the [ImportError] of
    the export call is caught by the first clause, but the first line of
    the pair is refused; no message pair is reported and the encoding
    error leaves the module. *)
Lemma C9_pair_unprinted_on_ascii_stdout :
  raised_at (on_ascii (world_export_raises no_onnx)) no_onnx
    [Downloading; Exporting] /\
  isinstance no_onnx ImportError = true /\
  run (on_ascii (world_export_raises no_onnx)) =
    ([Downloading; Exporting], Raise cannot_encode_cross) /\
  shows_not_installed (fst (run (on_ascii (world_export_raises no_onnx))))
    = false.
Proof.
  repeat split. apply raised_at_in_try; split; reflexivity.
Qed.

(** C10 (as amended).  On every run in which whatever the [try] body
    raises is an instance of [Exception], is raised before the success
    line is printed, and is taken by a handler that runs to its end,
    exactly one of the four terminal outcome messages is printed -- the
    success line with its size line, the not-found line, the
    missing-dependency pair, or a generic error line -- and no line of
    another outcome beside it. *)
Theorem C10_exactly_one_outcome (w : world) :
  (forall e pre, raised_at w e pre ->
     isinstance e Exception = true /\ ~ In Success pre /\
     handler_succeeds w e pre) ->
  outcome_lines (fst (run w)) = 1%nat /\
  terminal_outcomes (fst (run w)) = 1%nat.
Proof.
  intros Hall.
  destruct (try_body_cases w)
    as [(n & Hc & Hex & Hsz & Hacc)|[(Hc & Hex & Hacc)|(e & pre & Hat)]].
  - rewrite (run_success w n Hc Hex Hsz Hacc). split; reflexivity.
  - rewrite (run_not_found w Hc Hex Hacc). split; reflexivity.
  - destruct (Hall e pre Hat) as (Hexc & HnS & Hh).
    unfold handler_succeeds in Hh.
    destruct (isinstance e ImportError) eqn:Him.
    + rewrite (run_not_installed w e pre Hat Him Hh). cbn [fst].
      destruct Hat; try (split; reflexivity);
        exfalso; apply HnS; simpl; auto.
    + destruct Hh as (s & Hs & HE & _).
      rewrite (run_error w e pre s Hat Him Hexc Hs HE). cbn [fst].
      destruct Hat; try (split; reflexivity);
        exfalso; apply HnS; simpl; auto.
Qed.

(** A failed export: one outcome, the generic error line. *)
Lemma C10_witness :
  raised_at (world_export_raises disk_full) disk_full [Downloading; Exporting] /\
  outcome_lines (fst (run (world_export_raises disk_full))) = 1%nat.
Proof.
  assert (H0 : raised_at (world_export_raises disk_full) disk_full
                 [Downloading; Exporting])
    by (apply raised_at_in_try; split; reflexivity).
  split; [exact H0|].
  refine (proj1 (C10_exactly_one_outcome (world_export_raises disk_full) _)).
  intros e pre H.
  destruct (raised_at_unique _ _ _ _ _ H H0) as [-> ->].
  split; [reflexivity|]. split.
  - simpl. intros [H1|[H1|[]]]; discriminate H1.
  - exists "disk full". repeat split.
Defined.

(** C10 fails as stated, in three ways.  When Ctrl-C arrives while the
    library is being imported nothing at all is printed.  When the file
    vanishes between the existence check and the size query, the success
    line and a generic error line are both printed.  And with the library
    absent on an ASCII standard output, where only instances of
    [Exception] are raised, no outcome message is printed. *)
Lemma C10_none_or_two_outcomes :
  (run world_import_interrupted = ([], Raise ctrl_c) /\
   outcome_lines (fst (run world_import_interrupted)) = 0%nat)
  /\
  (fst (run (world_size_raises no_such_file)) =
     [Downloading; Exporting; Success;
      ErrorMsg "[Errno 2] No such file or directory: 'yolov8n-pose.onnx'"] /\
   outcome_lines (fst (run (world_size_raises no_such_file))) = 2%nat)
  /\
  (isinstance no_module Exception = true /\
   run (on_ascii world_not_installed) = ([], Raise cannot_encode_cross) /\
   outcome_lines (fst (run (on_ascii world_not_installed))) = 0%nat).
Proof. repeat split. Qed.

(** * Further properties of the script *)

(** ** What each printed line tells about the run *)

Ltac in_cases H :=
  cbn [fst app In] in H;
  repeat (destruct H as [H|H]; try discriminate H);
  try contradiction.

(** The script returns normally exactly when whatever its [try] body
    raises is an instance of [Exception] and the handler that takes it
    runs to its end. *)
Theorem returns_normally_iff (w : world) :
  returns_normally (run w) <->
  (forall e pre, raised_at w e pre ->
     isinstance e Exception = true /\ handler_succeeds w e pre).
Proof.
  unfold returns_normally. split.
  - intros Hret e pre Hat.
    destruct (isinstance e Exception) eqn:Hexc.
    2:{ rewrite (run_uncaught w e pre Hat Hexc) in Hret. discriminate Hret. }
    split; [reflexivity|].
    destruct (handler_succeeds_dec w e pre) as [Hh|Hh]; [exact Hh|].
    exfalso. apply Hh. unfold handler_succeeds. revert Hret.
    rewrite (run_after_raise w e pre Hat), Hexc.
    destruct (isinstance e ImportError).
    + unfold on_import_error. cbn [accepts].
      destruct (result_unit_cases (write w (map text pre) (text NotInstalled)))
        as [HN|[e' HN]].
      * rewrite (print_then_Ok _ _ _ _ HN). cbv beta.
        destruct (result_unit_cases
                    (write w (map text (pre ++ [NotInstalled]))
                       (text InstallHint))) as [HH|[e' HH]].
        -- auto.
        -- rewrite (print_Raise _ _ _ _ HH). discriminate.
      * rewrite (print_then_Raise _ _ _ _ _ HN). discriminate.
    + unfold on_exception, str. destruct (exn_str e) as [s|e'].
      * rewrite (call_Ok _ _ _ _ eq_refl). cbv beta.
        destruct (result_unit_cases
                    (write w (map text pre) (text (ErrorMsg s))))
          as [HE|[e' HE]].
        -- intros _. exists s. cbn [accepts]. auto.
        -- rewrite (print_Raise _ _ _ _ HE). discriminate.
      * rewrite (call_Raise _ _ _ _ eq_refl). discriminate.
  - intros Hall.
    destruct (try_body_cases w)
      as [(n & Hc & Hex & Hsz & Hacc)|[(Hc & Hex & Hacc)|(e & pre & Hat)]].
    + rewrite (run_success w n Hc Hex Hsz Hacc). reflexivity.
    + rewrite (run_not_found w Hc Hex Hacc). reflexivity.
    + destruct (Hall e pre Hat) as [Hexc Hh]. unfold handler_succeeds in Hh.
      destruct (isinstance e ImportError) eqn:Him.
      * rewrite (run_not_installed w e pre Hat Him Hh). reflexivity.
      * destruct Hh as (s & Hs & HE & _).
        rewrite (run_error w e pre s Hat Him Hexc Hs HE). reflexivity.
Qed.

(** The number of terminal outcomes on show tells how the process ended:
    one when it ended normally, none when an exception left the module. *)
Theorem outcome_count_tells_ending (w : world) :
  terminal_outcomes (fst (run w)) =
    match snd (run w) with Ok _ => 1%nat | Raise _ => 0%nat end.
Proof.
  destruct (run_case_run w)
    as [n _ _ _ _| _ _ _
       |e pre Hat _ _|e e' pre Hat _ _|e e' pre Hat _ _ _
       |e pre s Hat _ _ _ _|e e' pre Hat _ _ _|e e' pre s Hat _ _ _ _
       |e pre Hat _];
    cbn [fst snd]; try reflexivity; destruct Hat; reflexivity.
Qed.

(** The success line is printed exactly when the imports, the model load
    and the export returned, the file exists and standard output took
    the two progress lines and the success line; the size query comes
    after it and has no say, whether it answers or raises. *)
Theorem success_line_iff (w : world) :
  In Success (fst (run w)) <->
  export_completes w /\ path_exists w "yolov8n-pose.onnx" = true /\
  accepts w [] [Downloading; Exporting; Success].
Proof.
  assert (Hverify : forall e,
            raised_at w e [Downloading; Exporting; Success] ->
            export_completes w /\ path_exists w "yolov8n-pose.onnx" = true /\
            accepts w [] [Downloading; Exporting; Success]).
  { intros e Hat. inversion Hat as [| | | | | | |Hd Hex HS _|n Hd Hex HS _ _|];
      apply export_done_completes in Hd; destruct Hd as [Hc (HD & HE & _)];
      refine (conj Hc (conj Hex _)); repeat split; assumption. }
  assert (Hpre : forall e pre (tl : stdout),
            raised_at w e pre -> ~ In Success tl -> In Success (pre ++ tl) ->
            pre = [Downloading; Exporting; Success]).
  { intros e pre tl Hat Htl Hin. apply in_app_or in Hin.
    destruct Hin as [Hin|Hin]; [|contradiction].
    destruct Hat; try reflexivity; in_cases Hin. }
  split.
  - destruct (run_case_run w)
      as [n Hc Hex _ Hacc| _ _ _
         |e pre Hat _ _|e e' pre Hat _ _|e e' pre Hat _ _ _
         |e pre s Hat _ _ _ _|e e' pre Hat _ _ _|e e' pre s Hat _ _ _ _
         |e pre Hat _];
      cbn [fst]; intros Hin.
    + destruct Hacc as (HD & HE & HS & _).
      refine (conj Hc (conj Hex _)). repeat split; assumption.
    + in_cases Hin.
    + assert (Hp : pre = [Downloading; Exporting; Success])
        by (apply (Hpre e pre [NotInstalled; InstallHint] Hat); [intros H; in_cases H | exact Hin]).
      subst pre. exact (Hverify e Hat).
    + assert (Hp : pre = [Downloading; Exporting; Success])
        by (apply (Hpre e pre [] Hat);
            [intros [] | rewrite app_nil_r; exact Hin]).
      subst pre. exact (Hverify e Hat).
    + assert (Hp : pre = [Downloading; Exporting; Success])
        by (apply (Hpre e pre [NotInstalled] Hat); [intros H; in_cases H | exact Hin]).
      subst pre. exact (Hverify e Hat).
    + assert (Hp : pre = [Downloading; Exporting; Success])
        by (apply (Hpre e pre [ErrorMsg s] Hat); [intros H; in_cases H | exact Hin]).
      subst pre. exact (Hverify e Hat).
    + assert (Hp : pre = [Downloading; Exporting; Success])
        by (apply (Hpre e pre [] Hat);
            [intros [] | rewrite app_nil_r; exact Hin]).
      subst pre. exact (Hverify e Hat).
    + assert (Hp : pre = [Downloading; Exporting; Success])
        by (apply (Hpre e pre [] Hat);
            [intros [] | rewrite app_nil_r; exact Hin]).
      subst pre. exact (Hverify e Hat).
    + assert (Hp : pre = [Downloading; Exporting; Success])
        by (apply (Hpre e pre [] Hat);
            [intros [] | rewrite app_nil_r; exact Hin]).
      subst pre. exact (Hverify e Hat).
  - intros (Hc & Hex & Hacc).
    destruct Hc as (H1 & H2 & m & H3 & H4).
    assert (HD : write w (map text []) (text Downloading) = Ok tt)
      by apply Hacc.
    assert (HE : write w (map text [Downloading]) (text Exporting) = Ok tt)
      by apply Hacc.
    assert (HS : write w (map text [Downloading; Exporting]) (text Success)
                 = Ok tt) by apply Hacc.
    assert (Hin : forall e pre, raised_at w e pre -> In Success pre).
    { intros e pre Hat.
      destruct Hat as [G1|G1 G2|[G1 G2] GD|[G1 G2] GD G3
                      |m' ((G1 & G2) & GD & G3) GE
                      |m' ((G1 & G2) & GD & G3) GE G4
                      |Gd Gex GS|Gd Gex GS Gsz|n Gd Gex GS Gsz GF|Gd Gex GN];
        try congruence; simpl; auto. }
    destruct (run_case_run w)
      as [n _ _ _ _| _ Hex' _
         |e pre Hat _ _|e e' pre Hat _ _|e e' pre Hat _ _ _
         |e pre s Hat _ _ _ _|e e' pre Hat _ _ _|e e' pre s Hat _ _ _ _
         |e pre Hat _];
      cbn [fst];
      try (apply in_or_app; left); try (apply (Hin _ _ Hat)).
    + simpl. auto.
    + congruence.
Qed.

(** A size line is only ever printed on the success path: the export
    returned, the file exists, the size query answered [n], the number
    is [n / (1024*1024)], and the run is the full success report. *)
Theorem size_line_sound (w : world) (v : pyfloat) :
  In (FileSize v) (fst (run w)) ->
  export_completes w /\
  path_exists w "yolov8n-pose.onnx" = true /\
  exists n : N,
    path_getsize w "yolov8n-pose.onnx" = Ok n /\
    v = truediv n (1024 * 1024) /\
    run w = ([Downloading; Exporting; Success; FileSize v], Ok tt).
Proof.
  destruct (run_case_run w)
    as [n Hc Hex Hsz _| _ _ _
       |e pre Hat _ _|e e' pre Hat _ _|e e' pre Hat _ _ _
       |e pre s Hat _ _ _ _|e e' pre Hat _ _ _|e e' pre s Hat _ _ _ _
       |e pre Hat _];
    intros Hin; try (destruct Hat; in_cases Hin; fail).
  - in_cases Hin. injection Hin as <-.
    split; [exact Hc|]. split; [exact Hex|].
    exists n. split; [exact Hsz|]. split; reflexivity.
  - in_cases Hin.
Qed.

Lemma size_line_sound_witness :
  In (FileSize (truediv 13042483 (1024 * 1024)))
     (fst (run (world_ok 13042483))) /\
  path_exists (world_ok 13042483) "yolov8n-pose.onnx" = true.
Proof.
  assert (H : In (FileSize (truediv 13042483 (1024 * 1024)))
                 (fst (run (world_ok 13042483))))
    by (simpl; auto).
  split; [exact H|].
  exact (proj1 (proj2 (size_line_sound (world_ok 13042483) _ H))).
Defined.

(** The not-found line is only ever printed when the export call
    returned and the file is absent; it is then the last line and the
    process ends normally. *)
Theorem not_found_line_sound (w : world) :
  In NotFound (fst (run w)) ->
  export_completes w /\
  path_exists w "yolov8n-pose.onnx" = false /\
  run w = ([Downloading; Exporting; NotFound], Ok tt).
Proof.
  destruct (run_case_run w)
    as [n _ _ _ _| Hc Hex _
       |e pre Hat _ _|e e' pre Hat _ _|e e' pre Hat _ _ _
       |e pre s Hat _ _ _ _|e e' pre Hat _ _ _|e e' pre s Hat _ _ _ _
       |e pre Hat _];
    intros Hin; try (destruct Hat; in_cases Hin; fail).
  - in_cases Hin.
  - split; [exact Hc|]. split; [exact Hex | reflexivity].
Qed.

Lemma not_found_line_sound_witness :
  In NotFound (fst (run world_no_file)) /\
  path_exists world_no_file "yolov8n-pose.onnx" = false.
Proof.
  assert (H : In NotFound (fst (run world_no_file))) by (simpl; auto).
  split; [exact H|].
  exact (proj1 (proj2 (not_found_line_sound world_no_file H))).
Defined.

(** The not-installed line only tells that some step of the [try] body
    raised an [ImportError]: it comes right after what the body had
    printed, and either the install hint follows and the script returns,
    or writing the hint raises and that exception leaves the module. *)
Theorem not_installed_line_sound (w : world) :
  In NotInstalled (fst (run w)) ->
  exists e pre,
    raised_at w e pre /\ isinstance e ImportError = true /\
    (run w = ((pre ++ [NotInstalled; InstallHint])%list, Ok tt) \/
     exists e', run w = ((pre ++ [NotInstalled])%list, Raise e')).
Proof.
  destruct (run_case_run w)
    as [n _ _ _ _| _ _ _
       |e pre Hat Him _|e e' pre Hat _ _|e e' pre Hat Him _ _
       |e pre s Hat _ _ _ _|e e' pre Hat _ _ _|e e' pre s Hat _ _ _ _
       |e pre Hat _];
    intros Hin; try (destruct Hat; in_cases Hin; fail);
    try (in_cases Hin; fail).
  - exists e, pre. auto.
  - exists e, pre. split; [exact Hat|]. split; [exact Him|]. right. eauto.
Qed.

Lemma not_installed_line_sound_witness :
  In NotInstalled (fst (run world_not_installed)) /\
  exists e pre,
    raised_at world_not_installed e pre /\ isinstance e ImportError = true /\
    (run world_not_installed =
       ((pre ++ [NotInstalled; InstallHint])%list, Ok tt) \/
     exists e', run world_not_installed =
       ((pre ++ [NotInstalled])%list, Raise e')).
Proof.
  assert (H : In NotInstalled (fst (run world_not_installed)))
    by (simpl; auto).
  split; [exact H|].
  exact (not_installed_line_sound world_not_installed H).
Defined.

(** A generic error line with the text [s] is only ever printed when a
    step of the [try] body raised an instance of [Exception] that is no
    [ImportError] and whose [str(e)] is [s]; the line is the last one
    printed and the script returns normally. *)
Theorem error_line_sound (w : world) (s : string) :
  In (ErrorMsg s) (fst (run w)) ->
  exists e pre,
    raised_at w e pre /\
    isinstance e Exception = true /\ isinstance e ImportError = false /\
    exn_str e = Text s /\
    run w = ((pre ++ [ErrorMsg s])%list, Ok tt).
Proof.
  destruct (run_case_run w)
    as [n _ _ _ _| _ _ _
       |e pre Hat _ _|e e' pre Hat _ _|e e' pre Hat _ _ _
       |e pre s' Hat Him Hexc Hs _|e e' pre Hat _ _ _|e e' pre s' Hat _ _ _ _
       |e pre Hat _];
    intros Hin; try (destruct Hat; in_cases Hin; fail);
    try (in_cases Hin; fail).
  assert (Heq : s' = s).
  { cbn [fst] in Hin. apply in_app_or in Hin. destruct Hin as [Hin|Hin].
    - destruct Hat; in_cases Hin.
    - in_cases Hin. injection Hin as ->. reflexivity. }
  subst s'. exists e, pre. repeat split; assumption.
Qed.

Lemma error_line_sound_witness :
  In (ErrorMsg "disk full") (fst (run (world_export_raises disk_full))) /\
  exists e pre,
    raised_at (world_export_raises disk_full) e pre /\
    isinstance e Exception = true /\ isinstance e ImportError = false /\
    exn_str e = Text "disk full" /\
    run (world_export_raises disk_full) =
      ((pre ++ [ErrorMsg "disk full"])%list, Ok tt).
Proof.
  assert (H : In (ErrorMsg "disk full")
                 (fst (run (world_export_raises disk_full))))
    by (simpl; auto).
  split; [exact H|].
  exact (error_line_sound (world_export_raises disk_full) "disk full" H).
Defined.

(** ** The order of the progress lines *)

(** In every run, however it ends, the output begins with the first [k]
    of the two progress lines, in their order, and neither is printed
    again; unless both were printed ([k = 2]) nothing about the file
    follows, only lines of the handlers. *)
Theorem progress_lines_in_order (w : world) :
  exists (k : nat) (tl : stdout),
    (k <= 2)%nat /\
    fst (run w) = (firstn k [Downloading; Exporting] ++ tl)%list /\
    ~ In Downloading tl /\ ~ In Exporting tl /\
    ((k < 2)%nat -> existsb is_progress tl = false).
Proof.
  assert (Hshape : forall (pre tl : stdout),
    In pre [[]; [Downloading]; [Downloading; Exporting];
            [Downloading; Exporting; Success]] ->
    existsb is_progress tl = false ->
    exists (k : nat) (tl' : stdout),
      (k <= 2)%nat /\
      (pre ++ tl)%list = (firstn k [Downloading; Exporting] ++ tl')%list /\
      ~ In Downloading tl' /\ ~ In Exporting tl' /\
      ((k < 2)%nat -> existsb is_progress tl' = false)).
  { intros pre tl Hpre Htl.
    assert (HnD : ~ In Downloading tl).
    { intros H. assert (existsb is_progress tl = true)
        by (apply existsb_exists; exists Downloading; auto). congruence. }
    assert (HnE : ~ In Exporting tl).
    { intros H. assert (existsb is_progress tl = true)
        by (apply existsb_exists; exists Exporting; auto). congruence. }
    cbn [In] in Hpre.
    destruct Hpre as [<-|[<-|[<-|[<-|[]]]]].
    - exists 0%nat, tl. repeat split; auto with arith.
    - exists 1%nat, tl. repeat split; auto with arith.
    - exists 2%nat, tl. repeat split; auto with arith; try (intros; lia).
    - exists 2%nat, (Success :: tl). repeat split; auto with arith.
      + intros [H|H]; [discriminate H | auto].
      + intros [H|H]; [discriminate H | auto].
      + intros; lia. }
  destruct (run_case_run w)
    as [n _ _ _ _| _ _ _
       |e pre Hat _ _|e e' pre Hat _ _|e e' pre Hat _ _ _
       |e pre s Hat _ _ _ _|e e' pre Hat _ _ _|e e' pre s Hat _ _ _ _
       |e pre Hat _];
    cbn [fst];
    try (apply Hshape; [exact (raised_at_prefix w e pre Hat) | reflexivity]);
    try (rewrite <- (app_nil_r pre);
         apply Hshape; [exact (raised_at_prefix w e pre Hat) | reflexivity]).
  - exists 2%nat, [Success; FileSize (truediv n (1024 * 1024))].
    repeat split; auto with arith.
    + intros [H|[H|[]]]; discriminate H.
    + intros [H|[H|[]]]; discriminate H.
    + intros; lia.
  - exists 2%nat, [NotFound].
    repeat split; auto with arith.
    + intros [H|[]]; discriminate H.
    + intros [H|[]]; discriminate H.
    + intros; lia.
Qed.

(** ** The number on the size line *)

(** A file of at most 5242 bytes -- an empty one included -- is reported
    as a success of 0.00 MB, when standard output accepts the lines. *)
Theorem tiny_file_reports_zero (w : world) (n : N) :
  export_completes w ->
  path_exists w "yolov8n-pose.onnx" = true ->
  path_getsize w "yolov8n-pose.onnx" = Ok n ->
  accepts w [] [Downloading; Exporting; Success;
                FileSize (truediv n (1024 * 1024))] ->
  (n <= 5242)%N ->
  printed (run w) =
    ["Downloading YOLOv8n-Pose model..."; "Exporting to ONNX format...";
     "✅ Success! Model exported to: yolov8n-pose.onnx";
     "   File size: 0.00 MB"].
Proof.
  intros Hexp Hex Hsz Hacc Hn. unfold printed.
  rewrite (run_success w n Hexp Hex Hsz Hacc). cbn [fst map text].
  assert (H0 : hundredths (truediv n (1024 * 1024)) = 0)
    by (apply hundredths_MiB_zero_iff; [|assumption];
        apply N.le_lt_trans with 5242%N; [assumption | reflexivity]).
  unfold format_2f. rewrite H0. reflexivity.
Qed.

Lemma tiny_file_reports_zero_witness :
  export_completes (world_ok 0) /\
  In "   File size: 0.00 MB" (printed (run (world_ok 0))).
Proof.
  split; [apply export_completes_sample|].
  rewrite (tiny_file_reports_zero (world_ok 0) 0
             (export_completes_sample _) eq_refl eq_refl
             (accepts_all (world_ok 0) (fun _ _ => eq_refl) _ _)
             ltac:(discriminate)).
  simpl. auto.
Defined.

(** A file of exactly [k] mebibytes is reported as [k.00 MB], with [k]
    in decimal as the library's own printer writes it, when standard
    output accepts the lines. *)
Theorem whole_mebibytes_report (w : world) (k : N) :
  export_completes w ->
  path_exists w "yolov8n-pose.onnx" = true ->
  path_getsize w "yolov8n-pose.onnx" = Ok (k * (1024 * 1024))%N ->
  accepts w [] [Downloading; Exporting; Success;
                FileSize (truediv (k * (1024 * 1024)) (1024 * 1024))] ->
  (k < 2 ^ 33)%N ->
  printed (run w) =
    ["Downloading YOLOv8n-Pose model..."; "Exporting to ONNX format...";
     "✅ Success! Model exported to: yolov8n-pose.onnx";
     "   File size: " ++ (NilZero.string_of_uint (N.to_uint k) ++ ".00")
       ++ " MB"].
Proof.
  intros Hexp Hex Hsz Hacc Hk. unfold printed.
  rewrite (run_success w _ Hexp Hex Hsz Hacc). cbn [fst map text].
  assert (Hq : hundredths (truediv (k * (1024 * 1024)) (1024 * 1024)) =
               100 * Z.of_N k).
  { rewrite hundredths_MiB_exact.
    - rewrite N2Z.inj_mul. change (Z.of_N (1024 * 1024)) with (2 ^ 20).
      rewrite Z.mul_assoc. apply round_half_even_exact. lia.
    - change (2 ^ 53)%N with (2 ^ 33 * (1024 * 1024))%N.
      apply N.mul_lt_mono_pos_r; [reflexivity | assumption]. }
  unfold format_2f. rewrite Hq.
  replace (100 * Z.of_N k / 100) with (Z.of_N k)
    by (rewrite Z.mul_comm, Z.div_mul; lia).
  replace (100 * Z.of_N k mod 100) with 0
    by (rewrite Z.mul_comm, Z.mod_mul; lia).
  replace (100 * Z.of_N k mod 10) with 0
    by (replace (100 * Z.of_N k) with (10 * Z.of_N k * 10) by ring;
        rewrite Z.mod_mul; lia).
  unfold decimal. rewrite N2Z.id. reflexivity.
Qed.

Lemma whole_mebibytes_report_witness :
  export_completes (world_ok (12 * (1024 * 1024))) /\
  In "   File size: 12.00 MB" (printed (run (world_ok (12 * (1024 * 1024))))).
Proof.
  split; [apply export_completes_sample|].
  rewrite (whole_mebibytes_report (world_ok (12 * (1024 * 1024))) 12
             (export_completes_sample _) eq_refl eq_refl
             (accepts_all (world_ok (12 * (1024 * 1024)))
                (fun _ _ => eq_refl) _ _)
             eq_refl).
  simpl. auto.
Defined.

(** A larger file never gets a smaller number: below [2^53] bytes the
    printed hundredths grow with the size. *)
Theorem reported_size_monotone (n1 n2 : N) :
  (n1 <= n2)%N -> (n2 < 2 ^ 53)%N ->
  hundredths (truediv n1 (1024 * 1024)) <= hundredths (truediv n2 (1024 * 1024)).
Proof.
  intros Hle Hlt.
  rewrite !hundredths_MiB_exact
    by (try assumption; apply N.le_lt_trans with n2; assumption).
  apply round_half_even_mono; lia.
Qed.

Lemma reported_size_monotone_witness :
  (5242 <= 5243)%N /\
  hundredths (truediv 5242 (1024 * 1024)) <= hundredths (truediv 5243 (1024 * 1024)).
Proof.
  split; [discriminate|].
  exact (reported_size_monotone 5242 5243 ltac:(discriminate) eq_refl).
Defined.
